(** * The short-link registry of App.jsx

    A shallow embedding of the URL-shortener's state and operations
    (URLProvider, the validation helpers and the creation form's
    handleSubmit), followed by the properties of the registry:
    click accounting, lookup with expiry, validation, shortcode
    generation and the frame of recordClick.

    JavaScript values are modelled as follows.
    - strings: [string];  the empty string is the only falsy one;
    - numbers: the doubles [Math.random()] returns and their products are
      IEEE 754 binary64 values ([spec_float], with the operations of
      [SpecFloat]); validityMinutes and the times computed from it are
      rationals [Q]; integers [Z] where the value is integral by
      construction (time values in ms, clickCount);
    - Date objects: their time value, or [InvalidDate];
    - React state: fields of [World]; an updater passed to a setter
      is applied to the current value of the field, and a handler reads
      the state of the render it was created in, which is the current one
      when the handler runs;
    - new Date() and Math.random(): the [Runtime] supplies the successive
      readings, [World] counts how many were consumed. *)

From Stdlib Require Import ZArith QArith Qabs Qround String Ascii List Lia DecimalString.
From Stdlib Require Import SpecFloat.
From stdpp Require Import base relations gmap sets list strings.

Local Open Scope string_scope.
Local Open Scope list_scope.
Local Open Scope Z_scope.

(** ** The JavaScript runtime the component runs on *)

(** What the code takes from the platform: the clock behind [new Date()]
    ([Date_now k] is the time value of the k-th Date constructed), the
    generator behind [Math.random()], whether [new URL(s)] returns (true)
    or throws (false), and [Number.prototype.toString(36)]. *)
Class Runtime := {
  Date_now : nat -> Z;
  Math_random : nat -> spec_float;
  URL_parses : string -> bool;
  Number_toString36 : spec_float -> string
}.

(** ** Doubles *)

(** The integer [n] as a double, and the product of two doubles: binary64
    is [SpecFloat] at precision 53 with maximal exponent 1024, rounding to
    nearest, ties to even. *)
Definition Number_of_Z (n : Z) : spec_float := binary_normalize 53 1024 n 0 false.

Definition Number_mul (x y : spec_float) : spec_float := SFmul 53 1024 x y.

(** The result of [Math.floor]: an integer, NaN, or an infinity. *)
Inductive floored :=
| Floor (z : Z)
| FloorNaN
| FloorInfinity (negative : bool).

Definition Math_floor (x : spec_float) : floored :=
  match x with
  | S754_nan => FloorNaN
  | S754_infinity s => FloorInfinity s
  | S754_zero _ => Floor 0
  | S754_finite s m e =>
      Floor (if 0 <=? e then cond_Zopp s (Zpos m) * 2 ^ e
             else cond_Zopp s (Zpos m) / 2 ^ (- e))
  end.

(** A double in [[0, 1)], the range of [Math.random()]. *)
Definition in_unit_interval (r : spec_float) : Prop :=
  valid_binary 53 1024 r = true
  /\ SFleb (S754_zero false) r = true
  /\ SFltb r (Number_of_Z 1) = true.

(** ** Data model *)

(** A Date object: a time value in milliseconds, or Invalid Date. *)
Inductive Date :=
| TimeValue (ms : Z)
| InvalidDate.

(** [new Date(v)] for a number [v]: the date is invalid when [v] is beyond
    8.64e15 ms in absolute value, and its time value is [v] truncated towards
    zero otherwise (TimeClip). *)
Definition Qtrunc (v : Q) : Z :=
  if Qle_bool 0 v then Qfloor v else Qceiling v.

Definition new_Date (v : Q) : Date :=
  if Qle_bool (Qabs v) 8640000000000000 then TimeValue (Qtrunc v) else InvalidDate.

(** [new Date() > d], where [now] is the time value of the fresh Date: the
    comparison is on time values and is false when [d] is invalid (NaN). *)
Definition Date_gt (now : Z) (d : Date) : bool :=
  match d with
  | TimeValue e => e <? now
  | InvalidDate => false
  end.

Record ClickEvent := {
  timestamp : Z;
  referrer : string;
  location : string
}.

Record ShortLink := {
  id : string;
  originalUrl : string;
  shortcode : string;
  validityMinutes : Q;
  createdAt : Z;
  expiresAt : Date;
  clickCount : Z;
  clicks : list ClickEvent
}.

Inductive Level := info | warning | error.

(** The third argument of [log], one constructor per shape the code passes. *)
Inductive LogData :=
| DCount (count : nat)
| DShortcode (code : string)
| DClick (code : string) (metadata : ClickEvent)
| DErrors (errors : list string)
| DLinkCount (linkCount : nat).

Module LogEntry.
Record t := {
  timestamp : Z;
  level : Level;
  message : string;
  data : LogData
}.
End LogEntry.

(** The state of the providers: [shortLinks] (URLProvider), [logs]
    (LoggingProvider), and how many Dates and random numbers the session has
    consumed so far. *)
Record World := {
  shortLinks : list ShortLink;
  logs : list LogEntry.t;
  dates_read : nat;
  randoms_drawn : nat
}.

Definition initial : World :=
  {| shortLinks := []; logs := []; dates_read := 0%nat; randoms_drawn := 0%nat |}.

(** The state of the form: the [url] object of URLShortenerForm. *)
Record UrlForm := {
  form_originalUrl : string;
  form_validityMinutes : Q;
  form_customShortcode : string
}.

(** What a submission of the form amounts to: the messages handed to
    [setErrors] when validation fails, the record handed to [addShortLinks]
    otherwise. *)
Inductive Outcome :=
| ValidationError (messages : list string)
| Created (link : ShortLink).

(** ** A state monad over [World] *)

Definition M (A : Type) : Type := World -> A * World.

#[global] Instance M_ret : MRet M := fun A a w => (a, w).
#[global] Instance M_bind : MBind M :=
  fun A B f m w => let '(a, w') := m w in f a w'.

Definition run {A} (m : M A) (w : World) : World := snd (m w).
Definition result {A} (m : M A) (w : World) : A := fst (m w).

(** Reading the state captured by the closures of the current render. *)
Definition get_shortLinks : M (list ShortLink) := fun w => (shortLinks w, w).

Definition setShortLinks (f : list ShortLink -> list ShortLink) : M unit :=
  fun w => (tt, {| shortLinks := f (shortLinks w); logs := logs w;
                   dates_read := dates_read w; randoms_drawn := randoms_drawn w |}).

Definition setLogs (f : list LogEntry.t -> list LogEntry.t) : M unit :=
  fun w => (tt, {| shortLinks := shortLinks w; logs := f (logs w);
                   dates_read := dates_read w; randoms_drawn := randoms_drawn w |}).

Section Operations.
Context {rt : Runtime}.

(** [new Date()] followed by reading its time value. *)
Definition new_Date_now : M Z :=
  fun w => (Date_now (dates_read w),
            {| shortLinks := shortLinks w; logs := logs w;
               dates_read := S (dates_read w); randoms_drawn := randoms_drawn w |}).

(** [Math.random()]. *)
Definition random : M spec_float :=
  fun w => (Math_random (randoms_drawn w),
            {| shortLinks := shortLinks w; logs := logs w;
               dates_read := dates_read w; randoms_drawn := S (randoms_drawn w) |}).

(** ** LoggingProvider *)

Definition log (level : Level) (message : string) (data : LogData) : M unit :=
  t ← new_Date_now;
  setLogs (fun prev => prev ++ [ {| LogEntry.timestamp := t; LogEntry.level := level;
                                    LogEntry.message := message; LogEntry.data := data |} ]).

(** ** URLProvider *)

(** A number in a template literal. *)
Definition show_nat (n : nat) : string := NilEmpty.string_of_uint (Nat.to_uint n).

Definition addShortLinks (links : list ShortLink) : M unit :=
  setShortLinks (fun prev => prev ++ links);;
  log info ("Added " +:+ show_nat (length links) +:+ " short links") (DCount (length links)).

Definition getShortLink (code : string) : M (option ShortLink) :=
  shortLinks ← get_shortLinks;
  let link := List.find (fun l => String.eqb (shortcode l) code) shortLinks in
  match link with
  | Some l =>
      now ← new_Date_now;
      if Date_gt now (expiresAt l) then
        log warning ("Link expired: " +:+ code) (DShortcode code);;
        mret None
      else mret link
  | None => mret link
  end.

(** The updater [recordClick] maps over the records. *)
Definition click (code : string) (metadata : ClickEvent) (link : ShortLink) : ShortLink :=
  if String.eqb (shortcode link) code then
    {| id := id link; originalUrl := originalUrl link; shortcode := shortcode link;
       validityMinutes := validityMinutes link; createdAt := createdAt link;
       expiresAt := expiresAt link;
       clickCount := clickCount link + 1;
       clicks := clicks link ++ [metadata] |}
  else link.

Definition recordClick (code : string) (metadata : ClickEvent) : M unit :=
  setShortLinks (fun prev => map (click code metadata) prev);;
  log info ("Click recorded for " +:+ code) (DClick code metadata).

(** ** Helpers of the form *)

Definition chars : string :=
  "ABCDEFGHIJKLMNOPQRSTUVWXYZabcdefghijklmnopqrstuvwxyz0123456789".

(** [s.charAt(i)]: the one-character string at index [i], the empty string
    when [i] is out of range. *)
Definition charAt (s : string) (i : Z) : string :=
  if i <? 0 then ""
  else match String.get (Z.to_nat i) s with
       | Some c => String c EmptyString
       | None => ""
       end.

(** [s.charAt(x)] for the result [x] of [Math.floor]: NaN counts as
    position 0, an infinity is out of range. *)
Definition charAt_floored (s : string) (x : floored) : string :=
  match x with
  | Floor i => charAt s i
  | FloorNaN => charAt s 0
  | FloorInfinity _ => ""
  end.

(** [chars.charAt(Math.floor(r * chars.length))] *)
Definition pick (r : spec_float) : string :=
  charAt_floored chars
    (Math_floor (Number_mul r (Number_of_Z (Z.of_nat (String.length chars))))).

(** The body of [for (let i = 0; i < 6; i++)], with [n] iterations left. *)
Fixpoint generate_loop (n : nat) (result : string) : M string :=
  match n with
  | O => mret result
  | S n' => r ← random; generate_loop n' (result +:+ pick r)
  end.

Definition generateShortcode : M string := generate_loop 6 "".

Definition validateUrl (url : string) : bool := URL_parses url.

(** The character class [[a-zA-Z0-9]]. *)
Definition alnum (c : ascii) : bool :=
  let n := nat_of_ascii c in
  ((97 <=? n) && (n <=? 122) || (65 <=? n) && (n <=? 90) || (48 <=? n) && (n <=? 57))%nat.

(** [/^[a-zA-Z0-9]{3,20}$/.test(shortcode)] *)
Definition validateShortcode (code : string) : bool :=
  ((3 <=? String.length code) && (String.length code <=? 20))%nat
  && forallb alnum (list_ascii_of_string code).

(** Truthiness of a string and of a number. *)
Definition truthy (s : string) : bool := negb (String.eqb s "").
Definition truthy_num (v : Q) : bool := negb (Qeq_bool v 0).

(** [Number.isInteger(v)] and [v < 1] on a finite number. *)
Definition Number_isInteger (v : Q) : bool := Qeq_bool (inject_Z (Qfloor v)) v.
Definition lt_1 (v : Q) : bool := negb (Qle_bool 1 v).

(** What the validity input stores: [parseInt(e.target.value) || 30], where
    [parsed] is the result of parseInt ([None] for NaN). *)
Definition validityFromInput (parsed : option Z) : Q :=
  match parsed with
  | Some n => if n =? 0 then 30%Q else inject_Z n
  | None => 30%Q
  end.

Definition usedShortcodes_of (shortLinks : list ShortLink) : gset string :=
  list_to_set (map shortcode shortLinks).

Definition has (used : gset string) (code : string) : bool :=
  bool_decide (code ∈ used).

(** [validateForm]: the list it passes to [setErrors]; its boolean result is
    [newErrors.length === 0]. *)
Definition validateForm (shortLinks : list ShortLink) (url : UrlForm) : list string :=
  let newErrors := [] in
  let usedShortcodes := usedShortcodes_of shortLinks in
  let newErrors :=
    if negb (truthy (form_originalUrl url)) then
      newErrors ++ ["URL is required"]
    else if negb (validateUrl (form_originalUrl url)) then
      newErrors ++ ["Invalid URL format"]
    else newErrors in
  let newErrors :=
    if truthy_num (form_validityMinutes url)
       && (negb (Number_isInteger (form_validityMinutes url))
           || lt_1 (form_validityMinutes url)) then
      newErrors ++ ["Validity must be a positive integer"]
    else newErrors in
  let newErrors :=
    if truthy (form_customShortcode url) then
      if negb (validateShortcode (form_customShortcode url)) then
        newErrors ++ ["Shortcode must be 3-20 alphanumeric characters"]
      else if has usedShortcodes (form_customShortcode url) then
        newErrors ++ ["Shortcode already exists"]
      else newErrors
    else newErrors in
  newErrors.

(** [do { shortcode = generateShortcode(); } while (usedShortcodes.has(shortcode))]
    run for at most [fuel] iterations; [None] when the loop is still running
    after them. *)
Fixpoint generate_unused (fuel : nat) (usedShortcodes : gset string) (w : World)
  : option (string * World) :=
  match fuel with
  | O => None
  | S fuel' =>
      let '(code, w') := generateShortcode w in
      if has usedShortcodes code then generate_unused fuel' usedShortcodes w'
      else Some (code, w')
  end.

(** [handleSubmit] on the form contents [url]; [errors] is the form's
    [errors] state of the current render (the failure branch logs it). *)
Definition handleSubmit (fuel : nat) (errors : list string) (url : UrlForm) (w : World)
  : option (Outcome * World) :=
  let newErrors := validateForm (shortLinks w) url in
  if negb (length newErrors =? 0)%nat then
    Some (ValidationError newErrors,
          run (log error "Form validation failed" (DErrors errors)) w)
  else
    let usedShortcodes := usedShortcodes_of (shortLinks w) in
    let generated :=
      if negb (truthy (form_customShortcode url)) then generate_unused fuel usedShortcodes w
      else Some (form_customShortcode url, w) in
    match generated with
    | None => None
    | Some (code, w1) =>
        Some ((createdAt ← new_Date_now;
               let expiresAt :=
                 new_Date (inject_Z createdAt + form_validityMinutes url * 60 * 1000)%Q in
               r ← random;
               let newShortLink :=
                 {| id := String.substring 2 9 (Number_toString36 r);
                    originalUrl := form_originalUrl url;
                    shortcode := code;
                    validityMinutes := form_validityMinutes url;
                    createdAt := createdAt;
                    expiresAt := expiresAt;
                    clickCount := 0;
                    clicks := [] |} in
               addShortLinks [newShortLink];;
               log info "Successfully created short link" (DShortcode code);;
               mret (Created newShortLink)) w1)
    end.

(** ** Sessions *)

(** The states a session can be in: it starts from [initial] and proceeds by
    submissions of the form, lookups, recorded clicks, and log events of the
    surrounding pages. *)
Inductive reachable : World -> Prop :=
| reachable_initial : reachable initial
| reachable_submit w fuel errors url o w' :
    reachable w -> handleSubmit fuel errors url w = Some (o, w') -> reachable w'
| reachable_lookup w code :
    reachable w -> reachable (run (getShortLink code) w)
| reachable_click w code metadata :
    reachable w -> reachable (run (recordClick code metadata) w)
| reachable_log w level message data :
    reachable w -> reachable (run (log level message data) w).

(** [recordClick] called once per element of [metas], in order. *)
Fixpoint recordClicks (code : string) (metas : list ClickEvent) (w : World) : World :=
  match metas with
  | [] => w
  | m :: metas' => recordClicks code metas' (run (recordClick code m) w)
  end.

(** [Math.random()] returns a number in [[0, 1)]. *)
Definition random_in_range : Prop :=
  forall k, in_unit_interval (Math_random k).

(** ** Notions used to state the properties *)

(** The concatenation of the [n] characters picked from the random numbers
    [k, k+1, ...]: what [generateShortcode] returns when [k] numbers were
    drawn before it ([n] = 6). *)
Fixpoint picks (n k : nat) : string :=
  match n with
  | O => ""
  | S n' => pick (Math_random k) +:+ picks n' (S k)
  end.

(** The code produced by the [k]-th iteration of the do-while loop started
    in [w] (counting from 0). *)
Definition attempt (w : World) (k : nat) : string :=
  picks 6 (randoms_drawn w + 6 * k).

(** [l] is the first record of [links] whose shortcode is [code], at index [i]. *)
Definition first_match (links : list ShortLink) (code : string) (i : nat) (l : ShortLink) : Prop :=
  links !! i = Some l /\ shortcode l = code /\
  forall (j : nat) r, (j < i)%nat -> links !! j = Some r -> shortcode r <> code.

(** The fields of a record that [recordClick] does not write. *)
Definition same_identity (a b : ShortLink) : Prop :=
  id a = id b /\ originalUrl a = originalUrl b /\ shortcode a = shortcode b /\
  createdAt a = createdAt b /\ expiresAt a = expiresAt b.

(** The click counter of a record agrees with its list of clicks. *)
Definition counted (r : ShortLink) : Prop :=
  clickCount r = Z.of_nat (length (clicks r)).

(** [mrs] is [m] shifted right by [k] bits: its mantissa is the quotient,
    and its round bit is set only if the remainder is at least half of
    [2^k]. *)
Definition shifted (m : Z) (k : nat) (mrs : shr_record) : Prop :=
  0 <= shr_m mrs /\
  exists rem, m = shr_m mrs * 2 ^ Z.of_nat k + rem /\ 0 <= rem < 2 ^ Z.of_nat k /\
              (shr_r mrs = true -> 2 ^ Z.of_nat k <= 2 * rem).

(** A character of the alphabet [chars]. *)
Definition in_alphabet (c : ascii) : Prop :=
  alnum c = true /\ In c (list_ascii_of_string chars).

(** [w] after [n] more calls of [Math.random()]. *)
Definition drawn (n : nat) (w : World) : World :=
  {| shortLinks := shortLinks w; logs := logs w; dates_read := dates_read w;
     randoms_drawn := n + randoms_drawn w |}.

(** The verdict of the validity rule of [validateForm]. *)
Definition validity_violated (v : Q) : bool :=
  truthy_num v && (negb (Number_isInteger v) || lt_1 v).

(** The messages of [validateForm]. *)
Definition msg_required : string := "URL is required".
Definition msg_format : string := "Invalid URL format".
Definition msg_validity : string := "Validity must be a positive integer".
Definition msg_shortcode : string := "Shortcode must be 3-20 alphanumeric characters".
Definition msg_exists : string := "Shortcode already exists".

(** The messages [validateForm] produces from six verdicts: the URL is
    non-empty, it parses, the validity rule is violated, a custom shortcode
    is given, it is well-formed, it is in use. *)
Definition messages (b1 b2 b3 b4 b5 b6 : bool) : list string :=
  (if negb b1 then [msg_required] else if negb b2 then [msg_format] else [])
  ++ (if b3 then [msg_validity] else [])
  ++ (if b4 then if negb b5 then [msg_shortcode] else if b6 then [msg_exists] else []
      else []).

(** The number of input fields (URL, validity, custom shortcode) that
    violate a rule. *)
Definition violations (b1 b2 b3 b4 b5 b6 : bool) : nat :=
  ((if b1 && b2 then 0 else 1) + (if b3 then 1 else 0)
   + (if b4 && (negb b5 || b6) then 1 else 0))%nat.

End Operations.

(** ** The pages around the registry *)

(** The state of URLShortenerForm: [url], [errors], [loading] and
    [successMessage] ([None] for null). *)
Module Form.
Record t := {
  url : UrlForm;
  errors : list string;
  loading : bool;
  successMessage : option string
}.
End Form.

(** The contents [setUrl] puts back after a successful submission, which are
    also the initial ones. *)
Definition blank_url : UrlForm :=
  {| form_originalUrl := ""; form_validityMinutes := 30; form_customShortcode := "" |}.

Definition initial_form : Form.t :=
  {| Form.url := blank_url; Form.errors := []; Form.loading := false;
     Form.successMessage := None |}.

(** The [(field, value)] pairs the inputs pass to [handleUrlChange]. *)
Inductive FieldChange :=
| originalUrl_changed (value : string)
| validityMinutes_changed (value : Q)
| customShortcode_changed (value : string).

(** [handleUrlChange]: [setUrl(prev => ({ ...prev, [field]: value }))] and
    [setSuccessMessage(null)]. *)
Definition handleUrlChange (change : FieldChange) (f : Form.t) : Form.t :=
  let prev := Form.url f in
  {| Form.url :=
       match change with
       | originalUrl_changed value =>
           {| form_originalUrl := value;
              form_validityMinutes := form_validityMinutes prev;
              form_customShortcode := form_customShortcode prev |}
       | validityMinutes_changed value =>
           {| form_originalUrl := form_originalUrl prev;
              form_validityMinutes := value;
              form_customShortcode := form_customShortcode prev |}
       | customShortcode_changed value =>
           {| form_originalUrl := form_originalUrl prev;
              form_validityMinutes := form_validityMinutes prev;
              form_customShortcode := value |}
       end;
     Form.errors := Form.errors f;
     Form.loading := Form.loading f;
     Form.successMessage := None |}.

(** The onChange of the validity input:
    [handleUrlChange('validityMinutes', parseInt(e.target.value) || 30)]. *)
Definition validityInput_changed (parsed : option Z) : Form.t -> Form.t :=
  handleUrlChange (validityMinutes_changed (validityFromInput parsed)).

(** [shortLinks.slice(-n)]: the last [n] elements, all of them when there
    are fewer. *)
Definition slice_last {A} (n : nat) (l : list A) : list A :=
  drop (length l - n) l.

(** The records listed under "Recently Created Links". *)
Definition recentLinks (shortLinks : list ShortLink) : list ShortLink :=
  slice_last 3 shortLinks.

(** What RedirectHandler shows after its effect ran: the error, or the
    redirect in progress with the URL the timer will open. *)
Inductive RedirectView :=
| RedirectError (message : string)
| Redirecting (target : string).

Section Pages.
Context {rt : Runtime}.

(** [handleSubmit] together with the state of the form it leaves: the
    messages in [errors] on failure; the blank form, no errors, the success
    message and [loading] back to false on success. *)
Definition submit (fuel : nat) (f : Form.t) (w : World) : option (Form.t * World) :=
  match handleSubmit fuel (Form.errors f) (Form.url f) w with
  | None => None
  | Some (ValidationError newErrors, w') =>
      Some ({| Form.url := Form.url f; Form.errors := newErrors;
               Form.loading := Form.loading f;
               Form.successMessage := Form.successMessage f |}, w')
  | Some (Created _, w') =>
      Some ({| Form.url := blank_url; Form.errors := [];
               Form.loading := false;
               Form.successMessage := Some "Successfully created short link!" |}, w')
  end.

Definition locations : list string :=
  ["New York, US"; "London, UK"; "Tokyo, JP"; "Sydney, AU"; "Toronto, CA"].

(** [a[i]] for an integer [i]: undefined ([None]) out of range. *)
Definition at_index {A} (a : list A) (i : Z) : option A :=
  if i <? 0 then None else nth_error a (Z.to_nat i).

(** [a[x]] for the result [x] of [Math.floor]: undefined for NaN and the
    infinities. *)
Definition at_floored {A} (a : list A) (x : floored) : option A :=
  match x with
  | Floor i => at_index a i
  | FloorNaN | FloorInfinity _ => None
  end.

(** [getSimulatedLocation] *)
Definition getSimulatedLocation : M (option string) :=
  r ← random;
  mret (at_floored locations
          (Math_floor (Number_mul r (Number_of_Z (Z.of_nat (length locations)))))).

(** One run of the effect of RedirectHandler on [shortcodeToRedirect]
    ([None] for null). The result is [None] when the simulated location is
    undefined, which the record type of a click has no value for. *)
Definition redirectEffect (shortcodeToRedirect : option string) (w : World)
  : option (RedirectView * World) :=
  match shortcodeToRedirect with
  | None => Some (RedirectError "Invalid shortcode", w)
  | Some code =>
      if negb (truthy code) then Some (RedirectError "Invalid shortcode", w)
      else
        let '(link, w1) := getShortLink code w in
        match link with
        | None =>
            Some (RedirectError "Link not found or expired",
                  run (log warning "Link not found or expired" (DShortcode code)) w1)
        | Some l =>
            let '(now, w2) := new_Date_now w1 in
            let '(place, w3) := getSimulatedLocation w2 in
            match place with
            | None => None
            | Some place =>
                let clickMetadata :=
                  {| timestamp := now; referrer := "Direct"; location := place |} in
                Some (Redirecting (originalUrl l),
                      run (recordClick code clickMetadata) w3)
            end
        end
  end.


(** The effect of StatisticsPage. *)
Definition statisticsViewed : M unit :=
  shortLinks ← get_shortLinks;
  log info "Statistics page viewed" (DLinkCount (length shortLinks)).

(** One operation of the registry or of its logger. *)
Inductive step : World -> World -> Prop :=
| step_submit w fuel errors url o w' :
    handleSubmit fuel errors url w = Some (o, w') -> step w w'
| step_lookup w code : step w (run (getShortLink code) w)
| step_click w code metadata : step w (run (recordClick code metadata) w)
| step_log w level message data : step w (run (log level message data) w).

(** What a later state keeps of a record, and of all records. *)
Definition kept (r r' : ShortLink) : Prop :=
  same_identity r' r /\ clickCount r <= clickCount r' /\ clicks r `prefix_of` clicks r'.

Definition all_kept (w w' : World) : Prop :=
  forall (i : nat) r, shortLinks w !! i = Some r ->
    exists r', shortLinks w' !! i = Some r' /\ kept r r'.


End Pages.

(** ** A concrete runtime, for examples *)

Module Demo.

(** A clock advancing ten minutes per reading, a generator walking through
    the alphabet (its k-th number is the double nearest to (2j+1)/124 with
    j = k mod 62), a URL constructor that accepts http(s) prefixes only, and
    a fixed base-36 rendering. *)
#[local] Instance runtime : Runtime := {|
  Date_now k := 600000 * Z.of_nat k;
  Math_random k :=
    SFdiv 53 1024 (Number_of_Z (Z.of_nat (2 * (k mod 62) + 1))) (Number_of_Z 124);
  URL_parses s := String.prefix "https://" s || String.prefix "http://" s;
  Number_toString36 _ := "0.k3j9x2m7q1"
|}.

(** The same runtime with the clock stopped (fake timers). *)
Definition frozen : Runtime := {|
  Date_now _ := 0;
  Math_random := @Math_random runtime;
  URL_parses := @URL_parses runtime;
  Number_toString36 := @Number_toString36 runtime
|}.

Definition meta1 : ClickEvent :=
  {| timestamp := 5000; referrer := "Direct"; location := "Tokyo, JP" |}.
Definition meta2 : ClickEvent :=
  {| timestamp := 6000; referrer := "Direct"; location := "London, UK" |}.

Definition form_a : UrlForm :=
  {| form_originalUrl := "https://a.com"; form_validityMinutes := 30;
     form_customShortcode := "" |}.

Definition form_custom : UrlForm :=
  {| form_originalUrl := "https://a.com"; form_validityMinutes := 30;
     form_customShortcode := "validCode123" |}.

(** The record and the session after one submission of [form_custom]. *)
Definition link_custom : ShortLink :=
  {| id := "k3j9x2m7q"; originalUrl := "https://a.com"; shortcode := "validCode123";
     validityMinutes := 30; createdAt := 0; expiresAt := TimeValue 1800000;
     clickCount := 0; clicks := [] |}.

Definition w_custom : World :=
  match handleSubmit 1 [] form_custom initial with
  | Some (_, w) => w
  | None => initial
  end.

(** ... and after two clicks on it. *)
Definition w_clicked : World := recordClicks "validCode123" [meta1; meta2] w_custom.


(** The form after typing the URL and entering 0 in the validity input. *)
Definition form_zero_entered : Form.t :=
  validityInput_changed (Some 0)
    (handleUrlChange (originalUrl_changed "https://a.com") initial_form).

(** A submission that breaks a rule in each field. *)
Definition form_bad : UrlForm :=
  {| form_originalUrl := ""; form_validityMinutes := -5; form_customShortcode := "ab" |}.

(** The session after a submission that takes the code the generator would
    produce next. *)
Definition form_taken : UrlForm :=
  {| form_originalUrl := "https://a.com"; form_validityMinutes := 30;
     form_customShortcode := "BCDEFG" |}.

Definition w_taken : World :=
  match handleSubmit 1 [] form_taken initial with
  | Some (_, w) => w
  | None => initial
  end.

End Demo.

Module DemoPages.
Import Demo.
#[local] Existing Instance Demo.runtime.

(** A generator that always returns the double nearest to 0.35: every
    character picked is V, the location is London. *)
Definition stuck : Runtime := {|
  Date_now := @Date_now runtime;
  Math_random _ := SFdiv 53 1024 (Number_of_Z 35) (Number_of_Z 100);
  URL_parses := @URL_parses runtime;
  Number_toString36 := @Number_toString36 runtime
|}.


Definition filled_form : Form.t :=
  {| Form.url := form_custom; Form.errors := []; Form.loading := false;
     Form.successMessage := None |}.



(** The session of [w_taken] after a second submission, which generates its
    code. *)
Definition link_generated : ShortLink :=
  {| id := "k3j9x2m7q"; originalUrl := "https://a.com"; shortcode := "HIJKLM";
     validityMinutes := 30; createdAt := 1800000; expiresAt := TimeValue 3600000;
     clickCount := 0; clicks := [] |}.

Definition w_two : World :=
  match handleSubmit 2 [] form_a w_taken with
  | Some (_, w) => w
  | None => w_taken
  end.


(** A session on the [stuck] runtime whose only record has the code the
    generator keeps producing. *)
Definition form_V : UrlForm :=
  {| form_originalUrl := "https://a.com"; form_validityMinutes := 30;
     form_customShortcode := "VVVVVV" |}.

Definition w_stuck : World :=
  match @handleSubmit stuck 1 [] form_V initial with
  | Some (_, w) => w
  | None => initial
  end.

End DemoPages.

(** ** Basic facts about the operations *)

Section Facts.
Context {rt : Runtime}.

Lemma log_shortLinks level message data w :
  shortLinks (run (log level message data) w) = shortLinks w.
Proof. reflexivity. Qed.

Lemma log_logs level message data w :
  logs (run (log level message data) w)
  = logs w ++ [ {| LogEntry.timestamp := Date_now (dates_read w);
                   LogEntry.level := level; LogEntry.message := message;
                   LogEntry.data := data |} ].
Proof. reflexivity. Qed.

Lemma recordClick_shortLinks code metadata w :
  shortLinks (run (recordClick code metadata) w) = map (click code metadata) (shortLinks w).
Proof. reflexivity. Qed.

Lemma recordClick_logs code metadata w :
  logs (run (recordClick code metadata) w)
  = logs w ++ [ {| LogEntry.timestamp := Date_now (dates_read w);
                   LogEntry.level := info;
                   LogEntry.message := "Click recorded for " +:+ code;
                   LogEntry.data := DClick code metadata |} ].
Proof. reflexivity. Qed.

Lemma click_other code metadata link :
  shortcode link <> code -> click code metadata link = link.
Proof.
  intros Hne. unfold click.
  destruct (String.eqb_spec (shortcode link) code); [contradiction | reflexivity].
Qed.

Lemma click_match code metadata link :
  shortcode link = code ->
  click code metadata link =
    {| id := id link; originalUrl := originalUrl link; shortcode := shortcode link;
       validityMinutes := validityMinutes link; createdAt := createdAt link;
       expiresAt := expiresAt link;
       clickCount := clickCount link + 1;
       clicks := clicks link ++ [metadata] |}.
Proof.
  intros He. unfold click.
  destruct (String.eqb_spec (shortcode link) code); [reflexivity | contradiction].
Qed.

Lemma click_shortcode code metadata link :
  shortcode (click code metadata link) = shortcode link.
Proof. unfold click. destruct (String.eqb _ _); reflexivity. Qed.

Lemma recordClick_lookup code metadata w (i : nat) :
  shortLinks (run (recordClick code metadata) w) !! i
  = click code metadata <$> (shortLinks w !! i).
Proof. rewrite recordClick_shortLinks. apply list_lookup_fmap. Qed.

Lemma getShortLink_shortLinks code w :
  shortLinks (run (getShortLink code) w) = shortLinks w.
Proof.
  unfold run, getShortLink, get_shortLinks, mbind, M_bind. simpl.
  destruct (List.find _ (shortLinks w)) as [l|]; simpl; [|reflexivity].
  destruct (Date_gt _ _); reflexivity.
Qed.

(** ** Click accounting *)

Lemma handleSubmit_inv fuel errors url w o w' :
  handleSubmit fuel errors url w = Some (o, w') ->
  (validateForm (shortLinks w) url <> [] /\
   o = ValidationError (validateForm (shortLinks w) url) /\
   w' = run (log error "Form validation failed" (DErrors errors)) w)
  \/
  (validateForm (shortLinks w) url = [] /\
   exists code w1,
     (if truthy (form_customShortcode url)
      then code = form_customShortcode url /\ w1 = w
      else generate_unused fuel (usedShortcodes_of (shortLinks w)) w = Some (code, w1)) /\
     let link :=
       {| id := String.substring 2 9 (Number_toString36 (Math_random (randoms_drawn w1)));
          originalUrl := form_originalUrl url;
          shortcode := code;
          validityMinutes := form_validityMinutes url;
          createdAt := Date_now (dates_read w1);
          expiresAt := new_Date (inject_Z (Date_now (dates_read w1))
                                 + form_validityMinutes url * 60 * 1000)%Q;
          clickCount := 0;
          clicks := [] |} in
     o = Created link /\ shortLinks w' = shortLinks w1 ++ [link]).
Proof.
  unfold handleSubmit. intros H.
  destruct (validateForm (shortLinks w) url) as [|e errs] eqn:Hv; simpl in H.
  - right. split; [reflexivity|].
    destruct (truthy (form_customShortcode url)); simpl in H.
    + exists (form_customShortcode url), w.
      injection H as <- <-. repeat split.
    + destruct (generate_unused _ _ w) as [[code w1]|]; [|discriminate].
      exists code, w1. injection H as <- <-. repeat split.
  - left. injection H as <- <-. repeat split. discriminate.
Qed.

Lemma generate_loop_shortLinks n : forall result w,
  shortLinks (snd (generate_loop n result w)) = shortLinks w.
Proof.
  induction n as [|n IH]; intros result w; [reflexivity|].
  simpl. unfold mbind, M_bind, random. simpl. rewrite IH. reflexivity.
Qed.

Lemma generate_unused_shortLinks fuel used : forall w code w1,
  generate_unused fuel used w = Some (code, w1) -> shortLinks w1 = shortLinks w.
Proof.
  induction fuel as [|fuel IH]; intros w code w1 H; [discriminate|].
  cbn [generate_unused] in H. pose proof (generate_loop_shortLinks 6 "" w) as Hs.
  unfold generateShortcode in H.
  destruct (generate_loop 6 "" w) as [c w0]. cbn [snd] in Hs.
  destruct (has used c).
  - rewrite <- Hs. eapply IH. eassumption.
  - injection H as <- <-. assumption.
Qed.

Lemma handleSubmit_shortLinks fuel errors url w o w' :
  handleSubmit fuel errors url w = Some (o, w') ->
  match o with
  | ValidationError _ => shortLinks w' = shortLinks w
  | Created link => shortLinks w' = shortLinks w ++ [link] /\
                    clickCount link = 0 /\ clicks link = []
  end.
Proof.
  intros H. apply handleSubmit_inv in H as [(_ & -> & ->)|(_ & code & w1 & Hg & Ho & Hs)].
  - reflexivity.
  - subst o. simpl. split; [|split; reflexivity].
    rewrite Hs. f_equal.
    destruct (truthy (form_customShortcode url)).
    + destruct Hg as [_ ->]. reflexivity.
    + eapply generate_unused_shortLinks; eassumption.
Qed.

Lemma click_counted code metadata r : counted r -> counted (click code metadata r).
Proof.
  unfold counted, click. intros H.
  destruct (String.eqb _ _); simpl; [|assumption].
  rewrite length_app. simpl. lia.
Qed.

Lemma reachable_counted w : reachable w -> Forall counted (shortLinks w).
Proof.
  induction 1 as [|w fuel errors url o w' _ IH Hs|w code _ IH|w code m _ IH|w l msg d _ IH].
  - constructor.
  - apply handleSubmit_shortLinks in Hs. destruct o as [msgs|link].
    + rewrite Hs. assumption.
    + destruct Hs as (-> & Hc & Hl). apply Forall_app. split; [assumption|].
      constructor; [|constructor]. unfold counted. rewrite Hc, Hl. reflexivity.
  - rewrite getShortLink_shortLinks. assumption.
  - rewrite recordClick_shortLinks. apply Forall_fmap.
    eapply Forall_impl; [eassumption|]. intros r Hr. simpl. apply click_counted, Hr.
  - rewrite log_shortLinks. assumption.
Qed.

(** C1. In every state of a session, each record's clickCount is the length
    of its clicks list: a record is created with clickCount 0 and no clicks,
    and recordClick adds exactly 1 to clickCount and exactly one event to
    clicks of a record with the given shortcode. *)
Theorem clickCount_is_length_of_clicks w :
  reachable w ->
  Forall (fun r => clickCount r = Z.of_nat (length (clicks r))) (shortLinks w)
  /\ (forall fuel errors url link w',
        handleSubmit fuel errors url w = Some (Created link, w') ->
        clickCount link = 0 /\ clicks link = [] /\ shortLinks w' = shortLinks w ++ [link])
  /\ (forall code metadata (i : nat) r,
        shortLinks w !! i = Some r -> shortcode r = code ->
        exists r', shortLinks (run (recordClick code metadata) w) !! i = Some r' /\
                   clickCount r' = clickCount r + 1 /\
                   clicks r' = clicks r ++ [metadata] /\
                   length (clicks r') = S (length (clicks r))).
Proof.
  intros Hw. split; [|split].
  - exact (reachable_counted w Hw).
  - intros fuel errors url link w' Hs.
    apply handleSubmit_shortLinks in Hs. tauto.
  - intros code metadata i r Hi Hc.
    exists (click code metadata r). rewrite recordClick_lookup, Hi.
    split; [reflexivity|]. rewrite (click_match _ _ _ Hc). cbn [clickCount clicks].
    repeat split. now rewrite length_app, Nat.add_1_r.
Qed.

(** ** recordClick: unknown shortcodes, repeated clicks, frame *)

Lemma map_click_no_match code metadata links :
  (forall r, In r links -> shortcode r <> code) ->
  map (click code metadata) links = links.
Proof.
  intros Hno. rewrite <- (map_id links) at 2.
  apply map_ext_in. intros r Hr. apply click_other, Hno, Hr.
Qed.

(** C2 (amended). When no record has the given shortcode, recordClick
    leaves the records as they are and raises nothing, and it emits its
    info-level log event all the same: the event is logged whether or not
    a record matched. *)
Theorem recordClick_unknown_shortcode w code metadata :
  (forall r, In r (shortLinks w) -> shortcode r <> code) ->
  shortLinks (run (recordClick code metadata) w) = shortLinks w
  /\ logs (run (recordClick code metadata) w)
     = logs w ++ [ {| LogEntry.timestamp := Date_now (dates_read w);
                      LogEntry.level := info;
                      LogEntry.message := "Click recorded for " +:+ code;
                      LogEntry.data := DClick code metadata |} ].
Proof.
  intros Hno. split.
  - rewrite recordClick_shortLinks. apply map_click_no_match, Hno.
  - apply recordClick_logs.
Qed.

Lemma recordClicks_lookup code metas : forall w (i : nat) r,
  shortLinks w !! i = Some r -> shortcode r = code ->
  exists r', shortLinks (recordClicks code metas w) !! i = Some r' /\
             clickCount r' = clickCount r + Z.of_nat (length metas) /\
             clicks r' = clicks r ++ metas /\
             same_identity r' r.
Proof.
  induction metas as [|m metas IH]; intros w i r Hi Hc.
  - exists r. simpl. rewrite app_nil_r, Z.add_0_r. unfold same_identity. auto 10.
  - cbn [recordClicks].
    destruct (IH (run (recordClick code m) w) i (click code m r)) as (r' & Hi' & Hn & Hl & Hsame).
    + rewrite recordClick_lookup, Hi. reflexivity.
    + rewrite click_shortcode. exact Hc.
    + exists r'. rewrite (click_match _ _ _ Hc) in Hn, Hl, Hsame.
      cbn [clickCount clicks] in Hn, Hl. unfold same_identity in *. simpl in Hsame.
      split; [exact Hi'|]. split; [|split].
      * rewrite Hn. cbn [length]. lia.
      * rewrite Hl, <- app_assoc. reflexivity.
      * exact Hsame.
Qed.

(** C8 (amended). N calls of recordClick on the shortcode of an existing
    record add N to its clickCount and append the N events to its clicks in
    call order, one per call: clickCount becomes the old count plus N, clicks
    the old list followed by [meta_1; ...; meta_N]. So clickCount = N holds
    exactly when the record had clickCount 0 before the calls, and
    clicks = [meta_1; ...; meta_N] exactly when it had no clicks. Nothing
    here looks at expiresAt: the clicks are recorded on expired records
    too. *)
Theorem recordClick_N_times w code metas (i : nat) r :
  shortLinks w !! i = Some r -> shortcode r = code ->
  exists r', shortLinks (recordClicks code metas w) !! i = Some r' /\
             clickCount r' = clickCount r + Z.of_nat (length metas) /\
             clicks r' = clicks r ++ metas /\
             expiresAt r' = expiresAt r /\
             (clickCount r = 0 -> clicks r = [] ->
              clickCount r' = Z.of_nat (length metas) /\
              length (clicks r') = length metas /\
              clicks r' = metas) /\
             (clickCount r' = Z.of_nat (length metas) <-> clickCount r = 0) /\
             (clicks r' = metas <-> clicks r = []).
Proof.
  intros Hi Hc.
  destruct (recordClicks_lookup code metas w i r Hi Hc) as (r' & Hi' & Hn & Hl & Hsame).
  exists r'. split; [exact Hi'|]. split; [exact Hn|]. split; [exact Hl|].
  split; [apply Hsame|]. split; [|split].
  - intros H0 Hnil. rewrite Hn, Hl, H0, Hnil. auto.
  - rewrite Hn. lia.
  - rewrite Hl. split.
    + intros Heq. apply (f_equal (@length ClickEvent)) in Heq.
      rewrite length_app in Heq. destruct (clicks r); [reflexivity|].
      cbn [length] in Heq. lia.
    + intros ->. reflexivity.
Qed.

(** C10. recordClick keeps the number and the order of the records: the
    record at each index stays at that index. A record whose shortcode
    differs from the argument is left as it is; a matched record keeps its
    id, originalUrl, shortcode, validityMinutes, createdAt and expiresAt,
    and changes in clickCount (one more) and clicks (the event appended)
    only. *)
Theorem recordClick_frame w code metadata (i : nat) r :
  shortLinks w !! i = Some r ->
  length (shortLinks (run (recordClick code metadata) w)) = length (shortLinks w)
  /\ exists r', shortLinks (run (recordClick code metadata) w) !! i = Some r' /\
       (shortcode r <> code -> r' = r) /\
       id r' = id r /\ originalUrl r' = originalUrl r /\ shortcode r' = shortcode r /\
       validityMinutes r' = validityMinutes r /\
       createdAt r' = createdAt r /\ expiresAt r' = expiresAt r /\
       (shortcode r = code ->
        clickCount r' = clickCount r + 1 /\ clicks r' = clicks r ++ [metadata]).
Proof.
  intros Hi. split.
  - rewrite recordClick_shortLinks. apply length_map.
  - exists (click code metadata r). rewrite recordClick_lookup, Hi.
    split; [reflexivity|]. split; [apply click_other|].
    unfold click. destruct (String.eqb_spec (shortcode r) code) as [Heq|Hne];
      cbn [id originalUrl shortcode validityMinutes createdAt expiresAt clickCount clicks];
      repeat (split; [reflexivity|]); [auto | intros; contradiction].
Qed.

(** ** Lookup *)

Lemma find_first_match links code : forall (i : nat) l,
  first_match links code i l ->
  List.find (fun r => String.eqb (shortcode r) code) links = Some l.
Proof.
  induction links as [|r links IH]; intros i l (Hi & Hc & Hbefore).
  - discriminate.
  - simpl. destruct (String.eqb_spec (shortcode r) code) as [Heq|Hne].
    + destruct i as [|i]; [simpl in Hi; congruence|].
      exfalso. apply (Hbefore 0%nat r); [lia | reflexivity | exact Heq].
    + destruct i as [|i]; [simpl in Hi; congruence|].
      apply (IH i). split; [exact Hi|]. split; [exact Hc|].
      intros j r' Hj Hr'. apply (Hbefore (S j) r'); [lia | exact Hr'].
Qed.

Lemma find_no_match links code :
  (forall r, In r links -> shortcode r <> code) ->
  List.find (fun r => String.eqb (shortcode r) code) links = None.
Proof.
  intros Hno. destruct (List.find _ links) as [l|] eqn:Hf; [|reflexivity].
  apply find_some in Hf as [Hin Heq]. apply String.eqb_eq in Heq.
  exfalso. exact (Hno l Hin Heq).
Qed.

Lemma getShortLink_found code w l :
  List.find (fun r => String.eqb (shortcode r) code) (shortLinks w) = Some l ->
  getShortLink code w =
    if Date_gt (Date_now (dates_read w)) (expiresAt l) then
      (None, {| shortLinks := shortLinks w;
                logs := logs w ++ [ {| LogEntry.timestamp := Date_now (S (dates_read w));
                                       LogEntry.level := warning;
                                       LogEntry.message := "Link expired: " +:+ code;
                                       LogEntry.data := DShortcode code |} ];
                dates_read := S (S (dates_read w));
                randoms_drawn := randoms_drawn w |})
    else
      (Some l, {| shortLinks := shortLinks w; logs := logs w;
                  dates_read := S (dates_read w);
                  randoms_drawn := randoms_drawn w |}).
Proof.
  intros Hf. unfold getShortLink, get_shortLinks, mbind, M_bind. rewrite Hf. simpl.
  destruct (Date_gt _ _); reflexivity.
Qed.

Lemma getShortLink_missing code w :
  List.find (fun r => String.eqb (shortcode r) code) (shortLinks w) = None ->
  getShortLink code w = (None, w).
Proof.
  intros Hf. unfold getShortLink, get_shortLinks, mbind, M_bind. rewrite Hf. reflexivity.
Qed.

(** C5. getShortLink at time [now] returns the first record with the given
    shortcode when now <= its expiresAt, logging nothing; when now is past
    its expiresAt it returns nothing, keeps the record in the list and logs
    one warning naming the shortcode; when no record has the shortcode it
    returns nothing and logs nothing. *)
Theorem getShortLink_spec w code :
  let now := Date_now (dates_read w) in
  let w' := run (getShortLink code) w in
  let found := result (getShortLink code) w in
  (forall i l e,
      first_match (shortLinks w) code i l -> expiresAt l = TimeValue e -> now <= e ->
      found = Some l /\ logs w' = logs w /\ shortLinks w' = shortLinks w)
  /\ (forall i l e,
      first_match (shortLinks w) code i l -> expiresAt l = TimeValue e -> e < now ->
      found = None /\ shortLinks w' = shortLinks w /\ shortLinks w' !! i = Some l /\
      logs w' = logs w ++ [ {| LogEntry.timestamp := Date_now (S (dates_read w));
                               LogEntry.level := warning;
                               LogEntry.message := "Link expired: " +:+ code;
                               LogEntry.data := DShortcode code |} ])
  /\ ((forall r, In r (shortLinks w) -> shortcode r <> code) ->
      found = None /\ logs w' = logs w /\ shortLinks w' = shortLinks w).
Proof.
  cbv zeta. unfold run, result. split; [|split].
  - intros i l e Hm He Hle. rewrite (getShortLink_found code w l (find_first_match _ _ _ _ Hm)).
    rewrite He. unfold Date_gt. destruct (Z.ltb_spec e (Date_now (dates_read w))); [lia|].
    auto.
  - intros i l e Hm He Hlt. rewrite (getShortLink_found code w l (find_first_match _ _ _ _ Hm)).
    rewrite He. unfold Date_gt. destruct (Z.ltb_spec e (Date_now (dates_read w))); [|lia].
    simpl. repeat split. apply Hm.
  - intros Hno. rewrite (getShortLink_missing code w (find_no_match _ _ Hno)). auto.
Qed.


(** C9. Two lookups in a row, with the clock reading the same time at both
    and nothing done in between, return the same result; the lookup itself
    leaves the records as they are. *)
Theorem getShortLink_twice w code :
  Date_now (dates_read (run (getShortLink code) w)) = Date_now (dates_read w) ->
  result (getShortLink code) (run (getShortLink code) w) = result (getShortLink code) w
  /\ shortLinks (run (getShortLink code) w) = shortLinks w.
Proof.
  intros Hclock. split; [|apply getShortLink_shortLinks].
  revert Hclock. unfold run, result.
  destruct (List.find (fun r => String.eqb (shortcode r) code) (shortLinks w)) as [l|] eqn:Hf.
  - rewrite (getShortLink_found code w l Hf).
    destruct (Date_gt (Date_now (dates_read w)) (expiresAt l)) eqn:Hgt;
      cbn [fst snd]; intros Hclock.
    + match goal with |- context [getShortLink code ?w1] =>
        rewrite (getShortLink_found code w1 l Hf) end.
      cbn [dates_read] in Hclock |- *. rewrite Hclock, Hgt. reflexivity.
    + match goal with |- context [getShortLink code ?w1] =>
        rewrite (getShortLink_found code w1 l Hf) end.
      cbn [dates_read] in Hclock |- *. rewrite Hclock, Hgt. reflexivity.
  - rewrite (getShortLink_missing code w Hf). cbn [fst snd]. intros _.
    rewrite (getShortLink_missing code w Hf). reflexivity.
Qed.

(** ** Shortcode generation *)

Lemma length_append s t :
  String.length (s +:+ t) = (String.length s + String.length t)%nat.
Proof. induction s as [|c s IH]; simpl; [reflexivity | now rewrite IH]. Qed.

Lemma list_ascii_append s t :
  list_ascii_of_string (s +:+ t) = list_ascii_of_string s ++ list_ascii_of_string t.
Proof. induction s as [|c s IH]; simpl; [reflexivity | now rewrite IH]. Qed.

Lemma append_nil_r s : s +:+ "" = s.
Proof.
  induction s as [|c s IH]; [reflexivity|].
  change (String c (s +:+ "") = String c s). now rewrite IH.
Qed.

Lemma append_assoc s t u : (s +:+ t) +:+ u = s +:+ (t +:+ u).
Proof.
  induction s as [|c s IH]; [reflexivity|].
  change (String c ((s +:+ t) +:+ u) = String c (s +:+ (t +:+ u))). now rewrite IH.
Qed.

(** *** Rounding of doubles *)

Lemma iter_pos_nat {A} (f : A -> A) p : forall x,
  SpecFloat.iter_pos f p x = Nat.iter (Pos.to_nat p) f x.
Proof.
  induction p as [p IH|p IH|]; intros x; cbn [SpecFloat.iter_pos].
  - rewrite !IH, Pos2Nat.inj_xI. cbn [Nat.mul]. rewrite Nat.add_0_r.
    rewrite Nat.iter_succ_r, Nat.iter_add. reflexivity.
  - rewrite !IH, Pos2Nat.inj_xO. cbn [Nat.mul]. rewrite Nat.add_0_r.
    rewrite Nat.iter_add. reflexivity.
  - reflexivity.
Qed.

Lemma shr_1_shifted m k mrs : shifted m k mrs -> shifted m (S k) (shr_1 mrs).
Proof.
  intros (Hnn & rem & Hm & Hrem & Hr). unfold shifted.
  rewrite Nat2Z.inj_succ, Z.pow_succ_r by lia.
  destruct mrs as [m' r s]. cbn [shr_m shr_r] in *.
  destruct m' as [|[q|q|]|q]; cbn [shr_1 shr_m shr_r]; try lia.
  - split; [lia|]. exists rem. split; [lia|]. split; [lia|]. discriminate.
  - split; [lia|]. exists (2 ^ Z.of_nat k + rem). split; [lia|]. split; [lia|]. lia.
  - split; [lia|]. exists rem. split; [lia|]. split; [lia|]. discriminate.
  - split; [lia|]. exists (2 ^ Z.of_nat k + rem). split; [lia|]. split; [lia|]. lia.
Qed.

Lemma iter_shifted m p :
  0 <= m ->
  shifted m (Pos.to_nat p) (SpecFloat.iter_pos shr_1 p (Build_shr_record m false false)).
Proof.
  intros Hm. rewrite iter_pos_nat. induction (Pos.to_nat p) as [|k IH].
  - split; [exact Hm|]. exists 0. cbn. split; [lia|]. split; [lia|]. discriminate.
  - rewrite Nat.iter_succ. apply shr_1_shifted, IH.
Qed.


(** What [shr] followed by [round_nearest_even] does to a non-negative
    mantissa: with [s] the number of bits shifted out, the rounded mantissa
    [m1] is at most half a unit above the exact quotient. *)
Lemma shr_round_bound m e n mrs e' :
  0 <= m -> shr (Build_shr_record m false false) e n = (mrs, e') ->
  exists s, 0 <= s /\ e' = e + s /\ (s = 0 \/ s = n) /\
    let m1 := round_nearest_even (shr_m mrs) (loc_of_shr_record mrs) in
    0 <= m1 /\ 2 * m1 * 2 ^ s <= 2 * m + 2 ^ s /\ (s = 0 -> m1 = m).
Proof.
  intros Hm Hshr. unfold shr in Hshr. destruct n as [|p|p].
  - injection Hshr as <- <-. exists 0. cbn. repeat split; try lia; try (now left).
  - injection Hshr as <- <-. exists (Zpos p). split; [lia|]. split; [reflexivity|].
    split; [now right|].
    destruct (iter_shifted m p Hm) as (Hnn & rem & Hrem & Hlt & Hr).
    rewrite positive_nat_Z in *.
    destruct (SpecFloat.iter_pos shr_1 p _) as [m' r s]. cbn [shr_m shr_r] in *. cbv zeta.
    assert (0 < 2 ^ Zpos p) by (apply Z.pow_pos_nonneg; lia).
    destruct r, s; cbn [loc_of_shr_record round_nearest_even shr_m];
      try destruct (Z.even m'); (split; [lia|]); (split; [|lia]);
      try specialize (Hr eq_refl); nia.
  - injection Hshr as <- <-. exists 0. cbn. repeat split; try lia; try (now left).
Qed.

Lemma shr_trunc_bound m e n mrs e' :
  0 <= m -> shr (Build_shr_record m false false) e n = (mrs, e') ->
  exists s, 0 <= s /\ e' = e + s /\ 0 <= shr_m mrs /\ shr_m mrs * 2 ^ s <= m.
Proof.
  intros Hm Hshr. unfold shr in Hshr. destruct n as [|p|p].
  - injection Hshr as <- <-. exists 0. cbn. repeat split; lia.
  - injection Hshr as <- <-. exists (Zpos p). split; [lia|]. split; [reflexivity|].
    destruct (iter_shifted m p Hm) as (Hnn & rem & Hrem & Hlt & Hr).
    rewrite positive_nat_Z in *. split; [exact Hnn|]. lia.
  - injection Hshr as <- <-. exists 0. cbn. repeat split; lia.
Qed.

Lemma digits2_pos_spec p :
  2 ^ (Zpos (digits2_pos p) - 1) <= Zpos p < 2 ^ Zpos (digits2_pos p).
Proof.
  induction p as [p IH|p IH|]; cbn [digits2_pos].
  - rewrite Pos2Z.inj_succ. replace (Z.succ (Zpos (digits2_pos p)) - 1) with (Zpos (digits2_pos p)) by lia.
    rewrite Z.pow_succ_r by lia.
    replace (Zpos (digits2_pos p)) with (Z.succ (Zpos (digits2_pos p) - 1)) at 1 by lia.
    rewrite Z.pow_succ_r by lia. lia.
  - rewrite Pos2Z.inj_succ. replace (Z.succ (Zpos (digits2_pos p)) - 1) with (Zpos (digits2_pos p)) by lia.
    rewrite Z.pow_succ_r by lia.
    replace (Zpos (digits2_pos p)) with (Z.succ (Zpos (digits2_pos p) - 1)) at 1 by lia.
    rewrite Z.pow_succ_r by lia. lia.
  - cbn. lia.
Qed.

Lemma digits2_pos_le p k : 0 <= k -> Zpos p < 2 ^ k -> Zpos (digits2_pos p) <= k.
Proof.
  intros Hk Hlt. destruct (digits2_pos_spec p) as [Hlo _].
  destruct (Z.le_gt_cases (Zpos (digits2_pos p)) k) as [|Hgt]; [assumption|].
  exfalso. assert (2 ^ k <= 2 ^ (Zpos (digits2_pos p) - 1)) by (apply Z.pow_le_mono_r; lia).
  lia.
Qed.


(** The doubles in the range of [Math.random()]: 0, or m * 2^e with e <= -53. *)
Lemma below_one r :
  valid_binary 53 1024 r = true ->
  SFleb (S754_zero false) r = true -> SFltb r (S754_finite false 4503599627370496 (-52)) = true ->
  (exists s, r = S754_zero s) \/
  (exists m e, r = S754_finite false m e /\ -1074 <= e <= -53 /\ Zpos m < 2 ^ 53).
Proof.
  intros Hv H0 H1. destruct r as [s|s| |s m e].
  - left. eauto.
  - destruct s; discriminate.
  - discriminate.
  - right. destruct s; [discriminate|]. exists m, e. split; [reflexivity|].
    cbn [valid_binary] in Hv. unfold bounded, canonical_mantissa, fexp, emin in Hv.
    apply andb_true_iff in Hv as [Hc _]. apply Z.eqb_eq in Hc.
    pose proof (digits2_pos_spec m) as [Hlo Hhi].
    assert (Hd : Zpos (digits2_pos m) <= 53) by lia.
    assert (Hm : Zpos m < 2 ^ 53).
    { eapply Z.lt_le_trans; [exact Hhi|]. apply Z.pow_le_mono_r; lia. }
    split; [|exact Hm].
    unfold SFltb, SFcompare in H1.
    destruct (Z.compare_spec e (-52)) as [He|He|He]; try discriminate; [|lia].
    subst e. exfalso.
    destruct (Pos.compare_cont Eq m 4503599627370496) eqn:Hcmp; try discriminate.
    apply (proj1 (Pos.compare_lt_iff m 4503599627370496%positive)) in Hcmp.
    assert (Zpos (digits2_pos m) <= 52).
    { apply digits2_pos_le; [discriminate|].
      exact Hcmp. }
    clear -Hc H. lia.
Qed.

Lemma two_pow_split (x y : Z) : 0 <= x -> 0 <= y -> 2 ^ (x + y) = 2 ^ x * 2 ^ y.
Proof. intros. apply Z.pow_add_r; assumption. Qed.

Lemma two_pow_pos (x : Z) : 0 <= x -> 0 < 2 ^ x.
Proof. intros. apply Z.pow_pos_nonneg; [reflexivity | assumption]. Qed.

(** The floor of a finite non-negative double [q * 2^e''] is below [n] when
    [q * 2^s < n * 2^K] with [e'' = s - K]. *)
Lemma floor_below_scaled (q : positive) (e'' s K n : Z) :
  0 <= s -> 0 <= K -> e'' = s - K ->
  Zpos q * 2 ^ s < n * 2 ^ K ->
  0 <= (if 0 <=? e'' then Zpos q * 2 ^ e'' else Zpos q / 2 ^ (- e'')) < n.
Proof.
  intros Hs HK He Hlt. destruct (Z.leb_spec 0 e'') as [Hnn|Hneg].
  - assert (Hse : s = e'' + K) by lia. rewrite Hse, two_pow_split in Hlt by lia.
    pose proof (two_pow_pos K HK). pose proof (two_pow_pos e'' Hnn).
    split; [apply Z.mul_nonneg_nonneg; lia|].
    apply (Z.mul_lt_mono_pos_r (2 ^ K)); [assumption|]. lia.
  - assert (HKe : K = - e'' + s) by lia. rewrite HKe, two_pow_split in Hlt by lia.
    pose proof (two_pow_pos s Hs). pose proof (two_pow_pos (- e'') ltac:(lia)).
    split; [apply Z.div_pos; lia|].
    apply Z.div_lt_upper_bound; [assumption|].
    apply (Z.mul_lt_mono_pos_r (2 ^ s)); [assumption|]. lia.
Qed.

Lemma mul_floor_range (m : positive) (e : Z) (my : positive) (b n : Z) :
  -1074 <= e <= -53 -> Zpos m < 2 ^ 53 ->
  0 <= b <= 52 -> Zpos my = n * 2 ^ b -> 2 ^ 52 < Zpos my < 2 ^ 53 ->
  exists z,
    Math_floor (SFmul 53 1024 (S754_finite false m e) (S754_finite false my (- b))) = Floor z
    /\ 0 <= z < n.
Proof.
  intros He Hm Hb Hmy Hmyr.
  cbn [SFmul xorb]. unfold binary_round_aux.
  assert (HM : 0 <= Zpos (m * my)) by (apply Pos2Z.is_nonneg).
  destruct (shr_fexp 53 1024 (Zpos (m * my)) (e + - b) loc_Exact) as [mrs' e'] eqn:H1.
  unfold shr_fexp in H1. cbn [shr_record_of_loc] in H1.
  destruct (shr_round_bound _ _ _ _ _ HM H1) as (s1 & Hs1 & He' & Hs1n & Hm1nn & Hm1 & Hexact).
  cbv zeta in Hm1nn, Hm1, Hexact.
  set (m1 := round_nearest_even (shr_m mrs') (loc_of_shr_record mrs')) in *.
  destruct (shr_fexp 53 1024 m1 e' loc_Exact) as [mrs'' e''] eqn:H2.
  unfold shr_fexp in H2. cbn [shr_record_of_loc] in H2.
  destruct (shr_trunc_bound _ _ _ _ _ Hm1nn H2) as (s2 & Hs2 & He'' & Hm2nn & Hm2).
  (* the number of bits shifted out by the first rounding *)
  assert (Hs1le : s1 <= 53).
  { destruct Hs1n as [->| ->]; [lia|].
    assert (Hd : Zdigits2 (Zpos (m * my)) <= 106).
    { cbn [Zdigits2]. apply digits2_pos_le; [lia|].
      rewrite Pos2Z.inj_mul. change 106 with (53 + 53). rewrite two_pow_split by lia.
      apply Z.mul_lt_mono_nonneg; lia. }
    unfold fexp, emin. lia. }
  pose proof (two_pow_pos s1 Hs1) as Hp1. pose proof (two_pow_pos s2 Hs2) as Hp2.
  assert (HA : Zpos m + 1 <= 2 ^ (- e)).
  { assert (2 ^ 53 <= 2 ^ (- e)) by (apply Z.pow_le_mono_r; lia). lia. }
  assert (HP : 2 ^ s1 <= 2 ^ 53) by (apply Z.pow_le_mono_r; lia).
  assert (Hkey : m1 * 2 ^ s1 < Zpos my * 2 ^ (- e)).
  { assert (Zpos my * (Zpos m + 1) <= Zpos my * 2 ^ (- e))
      by (apply Z.mul_le_mono_nonneg_l; lia).
    rewrite Pos2Z.inj_mul in Hm1.
    destruct (Z.eq_dec s1 0) as [H0|H0].
    - rewrite (Hexact H0), H0, Pos2Z.inj_mul, Z.pow_0_r, Z.mul_1_r.
      pose proof (Pos2Z.is_pos my). revert H. generalize (2 ^ (- e)). intros. nia.
    - assert (HP2 : 2 ^ s1 < 2 * Zpos my).
      { apply Z.le_lt_trans with (2 ^ 53); [exact HP|].
        change (2 ^ 53) with (2 * 2 ^ 52). apply Z.mul_lt_mono_pos_l; [reflexivity|].
        apply Hmyr. }
      clear - Hm1 H HP2 Hp1. revert Hm1 H HP2 Hp1.
      generalize (2 ^ s1) (2 ^ (- e)) (Zpos my) (Zpos m). intros P A y x. intros. nia. }
  assert (Hm2' : shr_m mrs'' * 2 ^ (s1 + s2) < n * 2 ^ (- e + b)).
  { rewrite (two_pow_split (- e) b) by lia.
    replace (n * (2 ^ (- e) * 2 ^ b)) with (Zpos my * 2 ^ (- e)) by (rewrite Hmy; ring).
    rewrite (two_pow_split s1 s2) by lia.
    eapply Z.le_lt_trans; [|exact Hkey].
    replace (shr_m mrs'' * (2 ^ s1 * 2 ^ s2)) with (shr_m mrs'' * 2 ^ s2 * 2 ^ s1) by ring.
    apply Z.mul_le_mono_nonneg_r; lia. }
  assert (Hn : 0 < n).
  { pose proof (two_pow_pos b ltac:(lia)). pose proof (Pos2Z.is_pos my). nia. }
  destruct (shr_m mrs'') as [|q|q] eqn:Hq.
  - exists 0. split; [reflexivity | lia].
  - assert (Hfl := floor_below_scaled q e'' (s1 + s2) (- e + b) n ltac:(lia) ltac:(lia)
                     ltac:(lia) Hm2').
    destruct (Z.leb_spec e'' (1024 - 53)) as [_|Hbig].
    + eexists. split; [reflexivity|]. exact Hfl.
    + exfalso. destruct (Z.leb_spec 0 e'') as [Hnn|]; [|lia].
      assert (2 ^ 53 <= 2 ^ e'') by (apply Z.pow_le_mono_r; lia).
      pose proof (Pos2Z.is_pos q).
      assert (n <= Zpos my).
      { rewrite Hmy. pose proof (two_pow_pos b ltac:(lia)). nia. }
      assert (2 ^ e'' <= Zpos q * 2 ^ e'') by nia.
      lia.
  - lia.
Qed.

Lemma charAt_chars (i : Z) :
  0 <= i < 62 -> exists c, charAt chars i = String c EmptyString /\ in_alphabet c.
Proof.
  intros Hi. unfold charAt. destruct (Z.ltb_spec i 0) as [|_]; [lia|].
  assert (Hn : (Z.to_nat i < 62)%nat) by lia.
  revert Hn. generalize (Z.to_nat i). intros n Hn.
  do 62 (destruct n as [|n];
         [eexists; split; [reflexivity | split; [reflexivity | simpl; tauto]] |]).
  lia.
Qed.

Lemma Number_of_Z_1 : Number_of_Z 1 = S754_finite false 4503599627370496 (-52).
Proof. vm_compute. reflexivity. Qed.

(** The floor of the product of a double in [[0, 1)] with the double of an
    integer [n] is an integer in [[0, n)], whatever the rounding of the
    product. *)
Lemma floor_scaled_range (r : spec_float) (n : Z) (my : positive) (b : Z) :
  in_unit_interval r ->
  Number_of_Z n = S754_finite false my (- b) ->
  0 <= b <= 52 -> Zpos my = n * 2 ^ b -> 2 ^ 52 < Zpos my < 2 ^ 53 ->
  exists z, Math_floor (Number_mul r (Number_of_Z n)) = Floor z /\ 0 <= z < n.
Proof.
  intros (Hv & H0 & H1) Hn Hb Hmy Hr. rewrite Number_of_Z_1 in H1.
  rewrite Hn. unfold Number_mul.
  destruct (below_one r Hv H0 H1) as [[s ->] | (m & e & -> & He & Hm)].
  - exists 0. split; [reflexivity|].
    assert (0 < 2 ^ b) by (apply two_pow_pos; lia).
    pose proof (Pos2Z.is_pos my). nia.
  - apply mul_floor_range; assumption.
Qed.

Lemma floor_index (r : spec_float) :
  in_unit_interval r ->
  exists z, Math_floor (Number_mul r (Number_of_Z 62)) = Floor z /\ 0 <= z < 62.
Proof.
  intros Hr. apply (floor_scaled_range r 62 8725724278030336 47 Hr).
  - vm_compute. reflexivity.
  - split; discriminate.
  - vm_compute. reflexivity.
  - split; vm_compute; reflexivity.
Qed.

Lemma pick_in_alphabet (r : spec_float) :
  in_unit_interval r -> exists c, pick r = String c EmptyString /\ in_alphabet c.
Proof.
  intros Hr. destruct (floor_index r Hr) as (z & Hz & Hrange).
  unfold pick. change (Z.of_nat (String.length chars)) with 62. rewrite Hz.
  apply charAt_chars, Hrange.
Qed.

Lemma picks_in_alphabet :
  random_in_range ->
  forall n k, String.length (picks n k) = n /\
              Forall in_alphabet (list_ascii_of_string (picks n k)).
Proof.
  intros Hr n. induction n as [|n IH]; intros k; [split; [reflexivity | constructor]|].
  destruct (pick_in_alphabet _ (Hr k)) as (c & Hc & Hal).
  destruct (IH (S k)) as [Hlen Hall].
  cbn [picks]. rewrite Hc, length_append, list_ascii_append, Hlen.
  split; [reflexivity | now constructor].
Qed.

Lemma alnum_valid code :
  (3 <= String.length code <= 20)%nat ->
  Forall in_alphabet (list_ascii_of_string code) ->
  validateShortcode code = true.
Proof.
  intros [H3 H20] Hall. unfold validateShortcode.
  apply andb_true_intro. split.
  - apply andb_true_intro. split; apply Nat.leb_le; assumption.
  - apply forallb_forall. intros c Hc.
    rewrite Forall_forall in Hall. apply list_elem_of_In, Hall in Hc. apply Hc.
Qed.

Lemma generate_loop_eq n : forall result w,
  generate_loop n result w = (result +:+ picks n (randoms_drawn w), drawn n w).
Proof.
  induction n as [|n IH]; intros result w.
  - cbn [generate_loop picks]. unfold mret, M_ret, drawn.
    rewrite append_nil_r. destruct w; reflexivity.
  - cbn [generate_loop picks]. unfold mbind, M_bind, random. rewrite IH.
    cbn [randoms_drawn]. f_equal; [apply append_assoc|].
    unfold drawn. cbn [shortLinks logs dates_read randoms_drawn]. f_equal.
    apply Nat.add_succ_r.
Qed.

Lemma generateShortcode_eq w :
  generateShortcode w = (picks 6 (randoms_drawn w), drawn 6 w).
Proof. unfold generateShortcode. rewrite generate_loop_eq. reflexivity. Qed.

Lemma attempt_drawn w k : attempt (drawn 6 w) k = attempt w (S k).
Proof. unfold attempt, drawn. cbn [randoms_drawn]. f_equal. lia. Qed.

(** The do-while loop returns the first attempt that is not in use, and is
    still running after [fuel] iterations exactly when all of them collide. *)
Lemma generate_unused_spec fuel used : forall w,
  match generate_unused fuel used w with
  | Some (code, w1) =>
      exists k, (k < fuel)%nat /\ code = attempt w k /\ has used code = false /\
                (forall j, (j < k)%nat -> has used (attempt w j) = true) /\
                w1 = drawn (6 * S k) w
  | None => forall k, (k < fuel)%nat -> has used (attempt w k) = true
  end.
Proof.
  induction fuel as [|fuel IH]; intros w; [simpl; intros k Hk; lia|].
  cbn [generate_unused]. rewrite generateShortcode_eq.
  destruct (has used (picks 6 (randoms_drawn w))) eqn:Hhas.
  - specialize (IH (drawn 6 w)).
    destruct (generate_unused fuel used (drawn 6 w)) as [[code w1]|].
    + destruct IH as (k & Hk & Hcode & Hfree & Hbefore & Hw1).
      exists (S k). rewrite attempt_drawn in Hcode.
      split; [lia|]. split; [exact Hcode|]. split; [exact Hfree|]. split.
      * intros [|j] Hj.
        -- unfold attempt. rewrite Nat.mul_0_r, Nat.add_0_r. exact Hhas.
        -- rewrite <- attempt_drawn. apply Hbefore. lia.
      * rewrite Hw1. unfold drawn. simpl. f_equal. lia.
    + intros [|k] Hk.
      * unfold attempt. rewrite Nat.mul_0_r, Nat.add_0_r. exact Hhas.
      * rewrite <- attempt_drawn. apply IH. lia.
  - exists 0%nat. unfold attempt. rewrite Nat.mul_0_r, Nat.add_0_r.
    split; [lia|]. split; [reflexivity|]. split; [exact Hhas|]. split; [intros j Hj; lia|].
    reflexivity.
Qed.

Lemma has_used_iff links code :
  has (usedShortcodes_of links) code = true <-> exists r, In r links /\ shortcode r = code.
Proof.
  unfold has, usedShortcodes_of. rewrite bool_decide_eq_true, elem_of_list_to_set.
  rewrite list_elem_of_In, in_map_iff. firstorder.
Qed.

Lemma has_unused links code :
  has (usedShortcodes_of links) code = false ->
  forall r, In r links -> shortcode r <> code.
Proof.
  intros Hhas r Hr Hc. apply Bool.not_true_iff_false in Hhas. apply Hhas.
  apply has_used_iff. eauto.
Qed.

(** ** Validation *)

Lemma truthy_false_iff s : truthy s = false <-> s = "".
Proof.
  unfold truthy. rewrite Bool.negb_false_iff. apply String.eqb_eq.
Qed.

Lemma truthy_true_iff s : truthy s = true <-> s <> "".
Proof.
  unfold truthy. rewrite Bool.negb_true_iff. apply String.eqb_neq.
Qed.

Lemma truthy_num_iff v : truthy_num v = true <-> ~ (v == 0)%Q.
Proof.
  unfold truthy_num. rewrite Bool.negb_true_iff, <- Bool.not_true_iff_false.
  now rewrite Qeq_bool_iff.
Qed.

Lemma Number_isInteger_iff v :
  Number_isInteger v = true <-> exists z : Z, (v == inject_Z z)%Q.
Proof.
  unfold Number_isInteger. rewrite Qeq_bool_iff. split.
  - intros H. exists (Qfloor v). symmetry. exact H.
  - intros [z Hz]. rewrite Hz at 1. rewrite Qfloor_Z. symmetry. exact Hz.
Qed.

Lemma lt_1_iff v : lt_1 v = true <-> (v < 1)%Q.
Proof.
  unfold lt_1. rewrite Bool.negb_true_iff, <- Bool.not_true_iff_false, Qle_bool_iff.
  split; [apply Qnot_le_lt | apply Qlt_not_le].
Qed.

Lemma validity_violated_iff v :
  validity_violated v = true <->
  ~ (v == 0)%Q /\ (~ (exists z : Z, (v == inject_Z z)%Q) \/ (v < 1)%Q).
Proof.
  unfold validity_violated.
  rewrite Bool.andb_true_iff, Bool.orb_true_iff, Bool.negb_true_iff,
    <- Bool.not_true_iff_false, truthy_num_iff, Number_isInteger_iff, lt_1_iff.
  reflexivity.
Qed.

(** What the validity input stores is never falsy, so the validity rule
    always applies to a value typed into the form. *)
Lemma validityFromInput_truthy parsed : truthy_num (validityFromInput parsed) = true.
Proof.
  apply truthy_num_iff. unfold validityFromInput.
  destruct parsed as [n|]; [|discriminate].
  destruct (Z.eqb_spec n 0) as [|Hn]; [discriminate|].
  unfold Qeq. simpl. lia.
Qed.

Lemma validateForm_messages links url :
  validateForm links url =
  messages (truthy (form_originalUrl url)) (validateUrl (form_originalUrl url))
           (validity_violated (form_validityMinutes url))
           (truthy (form_customShortcode url))
           (validateShortcode (form_customShortcode url))
           (has (usedShortcodes_of links) (form_customShortcode url)).
Proof.
  unfold validateForm, messages, validity_violated.
  destruct (truthy (form_originalUrl url)), (validateUrl (form_originalUrl url)),
    (truthy_num (form_validityMinutes url)
     && (negb (Number_isInteger (form_validityMinutes url))
         || lt_1 (form_validityMinutes url))),
    (truthy (form_customShortcode url)),
    (validateShortcode (form_customShortcode url)),
    (has (usedShortcodes_of links) (form_customShortcode url)); reflexivity.
Qed.

Ltac messages_cases :=
  cbv [messages violations msg_required msg_format msg_validity msg_shortcode msg_exists
       negb andb orb app Nat.add];
  repeat match goal with
         | |- _ /\ _ => split
         | |- _ <-> _ => split
         | |- NoDup _ => constructor
         | |- ~ _ => intros ?
         | |- _ -> _ => intros ?
         | H : _ /\ _ |- _ => destruct H
         | H : In _ _ |- _ => destruct H
         | H : _ ∈ _ |- _ => apply list_elem_of_In in H
         | H : False |- _ => destruct H
         | H : _ = _ |- _ => discriminate H
         | |- In _ _ => simpl; tauto
         | |- _ = _ => reflexivity
         end.

Lemma messages_spec b1 b2 b3 b4 b5 b6 :
  let errs := messages b1 b2 b3 b4 b5 b6 in
  (In msg_required errs <-> b1 = false)
  /\ (In msg_format errs <-> b1 = true /\ b2 = false)
  /\ (In msg_validity errs <-> b3 = true)
  /\ (In msg_shortcode errs <-> b4 = true /\ b5 = false)
  /\ (In msg_exists errs <-> b4 = true /\ b5 = true /\ b6 = true)
  /\ NoDup errs
  /\ length errs = violations b1 b2 b3 b4 b5 b6.
Proof.
  destruct b1, b2, b3, b4, b5, b6; messages_cases.
Qed.

Lemma validateForm_spec links url :
  let errs := validateForm links url in
  (In msg_required errs <-> form_originalUrl url = "")
  /\ (In msg_format errs <->
      form_originalUrl url <> "" /\ validateUrl (form_originalUrl url) = false)
  /\ (In msg_validity errs <-> validity_violated (form_validityMinutes url) = true)
  /\ (In msg_shortcode errs <->
      form_customShortcode url <> "" /\ validateShortcode (form_customShortcode url) = false)
  /\ (In msg_exists errs <->
      form_customShortcode url <> "" /\ validateShortcode (form_customShortcode url) = true /\
      exists r, In r links /\ shortcode r = form_customShortcode url)
  /\ NoDup errs.
Proof.
  cbv zeta. rewrite validateForm_messages.
  destruct (messages_spec (truthy (form_originalUrl url)) (validateUrl (form_originalUrl url))
              (validity_violated (form_validityMinutes url))
              (truthy (form_customShortcode url))
              (validateShortcode (form_customShortcode url))
              (has (usedShortcodes_of links) (form_customShortcode url)))
    as (H1 & H2 & H3 & H4 & H5 & H6 & _).
  rewrite truthy_false_iff in H1. rewrite truthy_true_iff in H2, H4, H5.
  rewrite has_used_iff in H5. auto 10.
Qed.

Lemma validity_violated_integer n :
  validity_violated (inject_Z n) = true <-> n < 0.
Proof.
  rewrite validity_violated_iff. split.
  - intros [Hnz [Hnot|Hlt]].
    + exfalso. apply Hnot. exists n. reflexivity.
    + change 1%Q with (inject_Z 1) in Hlt. rewrite <- Zlt_Qlt in Hlt.
      assert (n <> 0); [|lia]. intros ->. apply Hnz. reflexivity.
  - intros Hn. split.
    + change 0%Q with (inject_Z 0). rewrite inject_Z_injective. lia.
    + right. change 1%Q with (inject_Z 1). rewrite <- Zlt_Qlt. lia.
Qed.

Lemma handleSubmit_invalid fuel errors url w :
  validateForm (shortLinks w) url <> [] ->
  handleSubmit fuel errors url w
  = Some (ValidationError (validateForm (shortLinks w) url),
          run (log error "Form validation failed" (DErrors errors)) w).
Proof.
  intros Hne. unfold handleSubmit.
  destruct (validateForm (shortLinks w) url); [contradiction | reflexivity].
Qed.

(** C4. An empty URL yields "URL is required" and not "Invalid URL format".
    Each of the three inputs is checked whatever the others gave: a message
    is in the list exactly when its own rule is violated, the list has one
    message per input in violation and no repetition, and a submission with
    a non-empty list fails with that list, leaving the records as they are. *)
Theorem validateForm_accumulates w url :
  let errs := validateForm (shortLinks w) url in
  (form_originalUrl url = "" ->
   In "URL is required" errs /\ ~ In "Invalid URL format" errs /\
   forall fuel errors, exists w',
     handleSubmit fuel errors url w = Some (ValidationError errs, w'))
  /\ (In "URL is required" errs <-> form_originalUrl url = "")
  /\ (In "Invalid URL format" errs <->
      form_originalUrl url <> "" /\ validateUrl (form_originalUrl url) = false)
  /\ (In "Validity must be a positive integer" errs <->
      validity_violated (form_validityMinutes url) = true)
  /\ (In "Shortcode must be 3-20 alphanumeric characters" errs <->
      form_customShortcode url <> "" /\ validateShortcode (form_customShortcode url) = false)
  /\ (In "Shortcode already exists" errs <->
      form_customShortcode url <> "" /\ validateShortcode (form_customShortcode url) = true /\
      exists r, In r (shortLinks w) /\ shortcode r = form_customShortcode url)
  /\ NoDup errs
  /\ length errs
     = violations (truthy (form_originalUrl url)) (validateUrl (form_originalUrl url))
                  (validity_violated (form_validityMinutes url))
                  (truthy (form_customShortcode url))
                  (validateShortcode (form_customShortcode url))
                  (has (usedShortcodes_of (shortLinks w)) (form_customShortcode url))
  /\ (errs <> [] ->
      forall fuel errors, exists w',
        handleSubmit fuel errors url w = Some (ValidationError errs, w') /\
        shortLinks w' = shortLinks w).
Proof.
  cbv zeta.
  destruct (validateForm_spec (shortLinks w) url) as (H1 & H2 & H3 & H4 & H5 & H6).
  split; [|split; [|split; [|split; [|split; [|split; [|split; [|split]]]]]]];
    try assumption.
  - intros Hempty. split; [apply H1, Hempty|]. split.
    + intros Hin. apply H2 in Hin. tauto.
    + intros fuel errors. eexists. apply handleSubmit_invalid.
      intros Hnil. apply H1 in Hempty. rewrite Hnil in Hempty. destruct Hempty.
  - rewrite validateForm_messages. apply messages_spec.
  - intros Hne fuel errors. eexists. split; [apply handleSubmit_invalid, Hne|].
    apply log_shortLinks.
Qed.

(** ** Shortcodes of created records *)

Lemma attempt_valid w k :
  random_in_range ->
  String.length (attempt w k) = 6%nat
  /\ Forall in_alphabet (list_ascii_of_string (attempt w k))
  /\ validateShortcode (attempt w k) = true.
Proof.
  intros Hr. unfold attempt.
  destruct (picks_in_alphabet Hr 6 (randoms_drawn w + 6 * k)) as [Hlen Hall].
  split; [exact Hlen|]. split; [exact Hall|].
  apply alnum_valid; [rewrite Hlen; lia | exact Hall].
Qed.

Lemma generate_unused_some fuel used w code w1 :
  generate_unused fuel used w = Some (code, w1) ->
  exists k, (k < fuel)%nat /\ code = attempt w k /\ has used code = false.
Proof.
  intros Hg. pose proof (generate_unused_spec fuel used w) as Hspec.
  rewrite Hg in Hspec. destruct Hspec as (k & Hk & Hc & Hfree & _). eauto.
Qed.

Lemma generate_unused_total fuel used w k :
  (k < fuel)%nat -> has used (attempt w k) = false ->
  exists code w1, generate_unused fuel used w = Some (code, w1).
Proof.
  intros Hk Hfree. pose proof (generate_unused_spec fuel used w) as Hspec.
  destruct (generate_unused fuel used w) as [[code w1]|]; [eauto|].
  rewrite (Hspec k Hk) in Hfree. discriminate.
Qed.

(** The shortcode of a record created by [handleSubmit] passes
    [validateShortcode] and is not the shortcode of an existing record. *)
Lemma created_shortcode fuel errors url w link w' :
  random_in_range ->
  handleSubmit fuel errors url w = Some (Created link, w') ->
  validateShortcode (shortcode link) = true
  /\ forall r, In r (shortLinks w) -> shortcode r <> shortcode link.
Proof.
  intros Hr Hs.
  apply handleSubmit_inv in Hs as [(_ & Ho & _)|(Hv & code & w1 & Hg & Ho & _)];
    [discriminate|].
  injection Ho as ->. cbn [shortcode].
  destruct (validateForm_spec (shortLinks w) url) as (_ & _ & _ & H4 & H5 & _).
  rewrite Hv in H4, H5.
  destruct (truthy (form_customShortcode url)) eqn:Ht.
  - destruct Hg as [-> _]. apply truthy_true_iff in Ht.
    destruct (validateShortcode (form_customShortcode url)) eqn:Hvs.
    + split; [reflexivity|]. intros r Hin Heq. apply (proj2 H5). eauto.
    + exfalso. apply (proj2 H4). auto.
  - apply generate_unused_some in Hg as (k & _ & -> & Hfree).
    split; [apply attempt_valid, Hr|]. apply has_unused, Hfree.
Qed.


(** No two records of a session have the same shortcode. *)
Lemma reachable_unique_shortcodes w :
  random_in_range -> reachable w -> NoDup (map shortcode (shortLinks w)).
Proof.
  intros Hr. induction 1 as [|w fuel errors url o w' _ IH Hs|w code _ IH|w code m _ IH|w l msg d _ IH].
  - constructor.
  - pose proof (handleSubmit_shortLinks _ _ _ _ _ _ Hs) as Hsl. destruct o as [msgs|link].
    + rewrite Hsl. exact IH.
    + destruct Hsl as (-> & _). rewrite map_app. apply NoDup_app.
      split; [exact IH|]. split; [|repeat constructor; simpl; set_solver].
      intros c Hc Hin. apply list_elem_of_In in Hc. apply in_map_iff in Hc as (r & <- & Hrin).
      apply list_elem_of_In in Hin. destruct Hin as [Heq|[]].
      destruct (created_shortcode _ _ _ _ _ _ Hr Hs) as [_ Hfresh].
      apply (Hfresh r Hrin). symmetry. exact Heq.
  - rewrite getShortLink_shortLinks. exact IH.
  - rewrite recordClick_shortLinks, map_map.
    erewrite map_ext; [exact IH|]. intros r. apply click_shortcode.
  - rewrite log_shortLinks. exact IH.
Qed.


(** C6. With no custom shortcode, a record that handleSubmit creates has a
    shortcode of 6 characters of the alphabet A-Z a-z 0-9, which passes the
    shortcode pattern, and which no record existing before has, expired or
    not. The loop draws codes until one is unused: when the inputs are
    valid and one of the first [fuel] attempts is unused, the submission
    completes within [fuel] iterations and creates the record. *)
Theorem generated_shortcode_fresh fuel errors url w :
  random_in_range -> form_customShortcode url = "" ->
  (forall link w',
      handleSubmit fuel errors url w = Some (Created link, w') ->
      String.length (shortcode link) = 6%nat
      /\ Forall (fun c => In c (list_ascii_of_string chars))
                (list_ascii_of_string (shortcode link))
      /\ validateShortcode (shortcode link) = true
      /\ (forall r, In r (shortLinks w) -> shortcode r <> shortcode link)
      /\ (exists k, (k < fuel)%nat /\ shortcode link = attempt w k /\
                    forall j, (j < k)%nat ->
                      has (usedShortcodes_of (shortLinks w)) (attempt w j) = true)
      /\ shortLinks w' = shortLinks w ++ [link])
  /\ (validateForm (shortLinks w) url = [] ->
      forall k, (k < fuel)%nat ->
                has (usedShortcodes_of (shortLinks w)) (attempt w k) = false ->
                exists link w', handleSubmit fuel errors url w = Some (Created link, w')).
Proof.
  intros Hr Hcustom. apply truthy_false_iff in Hcustom. split.
  - intros link w' Hs.
    pose proof (handleSubmit_shortLinks _ _ _ _ _ _ Hs) as (Hsl & _).
    destruct (created_shortcode _ _ _ _ _ _ Hr Hs) as [Hvalid Hfresh].
    apply handleSubmit_inv in Hs as [(_ & Ho & _)|(_ & code & w1 & Hg & Ho & _)];
      [discriminate|].
    rewrite Hcustom in Hg.
    pose proof (generate_unused_spec fuel (usedShortcodes_of (shortLinks w)) w) as Hspec.
    rewrite Hg in Hspec. destruct Hspec as (k & Hk & -> & _ & Hbefore & _).
    injection Ho as ->. cbn [shortcode] in *.
    destruct (attempt_valid w k Hr) as (Hlen & Hall & _).
    split; [exact Hlen|]. split.
    + eapply Forall_impl; [exact Hall|]. intros c Hc. apply Hc.
    + split; [exact Hvalid|]. split; [exact Hfresh|]. split; [|exact Hsl].
      exists k. auto.
  - intros Hv k Hk Hfree.
    destruct (generate_unused_total _ _ _ _ Hk Hfree) as (code & w1 & Hg).
    unfold handleSubmit. rewrite Hv, Hcustom. cbn [length Nat.eqb negb]. rewrite Hg.
    eauto.
Qed.

(** C3 (amended). Creating with validity 0 does not fail. The validity rule
    of validateForm is guarded by the truthiness of validityMinutes: its
    message is produced exactly when the value is nonzero and is not an
    integer >= 1. And the form does not hold 0: entering 0 in the validity
    input stores 30 (parseInt(text) || 30), the other fields staying as they
    are. After that entry validateForm does not produce the validity
    message; with a non-empty URL that parses and no custom shortcode it
    produces no message at all, and as soon as one of the first [fuel]
    generated codes is unused the submission returns the created record,
    with validityMinutes 30 and an expiry 1 800 000 ms after its creation,
    appended to the records. *)
Theorem validity_zero_entered w f :
  let f' := validityInput_changed (Some 0) f in
  let url := Form.url f' in
  (forall url0,
      let v := form_validityMinutes url0 in
      In "Validity must be a positive integer" (validateForm (shortLinks w) url0) <->
      ~ (v == 0)%Q /\ (~ (exists z : Z, (v == inject_Z z)%Q) \/ (v < 1)%Q))
  /\ form_validityMinutes url = 30%Q
  /\ form_originalUrl url = form_originalUrl (Form.url f)
  /\ form_customShortcode url = form_customShortcode (Form.url f)
  /\ ~ In "Validity must be a positive integer" (validateForm (shortLinks w) url)
  /\ (form_originalUrl url <> "" -> URL_parses (form_originalUrl url) = true ->
      form_customShortcode url = "" ->
      validateForm (shortLinks w) url = [] /\
      forall fuel errors k,
        (k < fuel)%nat ->
        has (usedShortcodes_of (shortLinks w)) (attempt w k) = false ->
        exists link w',
          handleSubmit fuel errors url w = Some (Created link, w')
          /\ originalUrl link = form_originalUrl url
          /\ validityMinutes link = 30%Q
          /\ expiresAt link = new_Date (inject_Z (createdAt link) + 1800000)%Q
          /\ clickCount link = 0 /\ clicks link = []
          /\ shortLinks w' = shortLinks w ++ [link]).
Proof.
  cbv zeta.
  set (url := Form.url (validityInput_changed (Some 0) f)).
  assert (Hv30 : form_validityMinutes url = 30%Q) by reflexivity.
  assert (Hok : validity_violated (form_validityMinutes url) = false).
  { rewrite Hv30. change 30%Q with (inject_Z 30).
    destruct (validity_violated (inject_Z 30)) eqn:Hvv; [|reflexivity].
    apply validity_violated_integer in Hvv. lia. }
  split; [|split; [exact Hv30|split; [reflexivity|split; [reflexivity|split]]]].
  - intros url0.
    destruct (validateForm_spec (shortLinks w) url0) as (_ & _ & Hv & _).
    fold msg_validity. rewrite validity_violated_iff in Hv. exact Hv.
  - intros Hin.
    destruct (validateForm_spec (shortLinks w) url) as (_ & _ & Hv & _).
    apply Hv in Hin. rewrite Hok in Hin. discriminate.
  - intros Hurl Hparse Hcustom.
    assert (Hnil : validateForm (shortLinks w) url = []).
    { rewrite validateForm_messages.
      apply truthy_true_iff in Hurl. apply truthy_false_iff in Hcustom.
      unfold validateUrl. rewrite Hurl, Hparse, Hcustom, Hok. reflexivity. }
    split; [exact Hnil|].
    intros fuel errors k Hk Hfree.
    destruct (generate_unused_total _ _ _ _ Hk Hfree) as (code & w1 & Hg).
    destruct (handleSubmit fuel errors url w) as [[o w']|] eqn:Hs.
    + pose proof (handleSubmit_shortLinks _ _ _ _ _ _ Hs) as Hsl.
      apply handleSubmit_inv in Hs as [(Hne & _)|(_ & code' & w1' & _ & Ho & _)];
        [contradiction|].
      subst o. destruct Hsl as (Hsl & Hc & Hl).
      eexists. exists w'. split; [reflexivity|].
      split; [reflexivity|]. split; [exact Hv30|]. split; [reflexivity|].
      split; [exact Hc|]. split; [exact Hl | exact Hsl].
    + exfalso. unfold handleSubmit in Hs. rewrite Hnil in Hs.
      apply truthy_false_iff in Hcustom. rewrite Hcustom in Hs.
      cbn [length Nat.eqb negb] in Hs. rewrite Hg in Hs. discriminate.
Qed.

End Facts.

(** ** The properties at work on the concrete runtime *)

Section Examples.
#[local] Existing Instance Demo.runtime.

Lemma w_custom_reachable : reachable Demo.w_custom.
Proof.
  apply (reachable_submit initial 1 [] Demo.form_custom (Created Demo.link_custom)).
  - constructor.
  - vm_compute. reflexivity.
Qed.

Lemma w_clicked_reachable : reachable Demo.w_clicked.
Proof. do 2 apply reachable_click. exact w_custom_reachable. Qed.

Lemma clickCount_is_length_of_clicks_witness :
  Forall (fun r => clickCount r = Z.of_nat (length (clicks r))) (shortLinks Demo.w_clicked)
  /\ shortLinks Demo.w_clicked
     = [ {| id := "k3j9x2m7q"; originalUrl := "https://a.com"; shortcode := "validCode123";
            validityMinutes := 30; createdAt := 0; expiresAt := TimeValue 1800000;
            clickCount := 2; clicks := [Demo.meta1; Demo.meta2] |} ].
Proof.
  split.
  - apply (clickCount_is_length_of_clicks Demo.w_clicked w_clicked_reachable).
  - vm_compute. reflexivity.
Defined.

(** C2 as stated fails: with no record at all, recordClick on an unknown
    shortcode does emit a log event. *)
Lemma recordClick_unknown_shortcode_is_logged :
  shortLinks initial = []
  /\ logs (run (recordClick "unknown-code" Demo.meta1) initial)
     = [ {| LogEntry.timestamp := 0; LogEntry.level := info;
            LogEntry.message := "Click recorded for unknown-code";
            LogEntry.data := DClick "unknown-code" Demo.meta1 |} ]
  /\ logs (run (recordClick "unknown-code" Demo.meta1) initial) <> logs initial.
Proof. split; [reflexivity|]. split; [reflexivity|]. discriminate. Qed.

Lemma recordClick_unknown_shortcode_witness :
  shortLinks (run (recordClick "unknown-code" Demo.meta1) Demo.w_custom)
  = shortLinks Demo.w_custom
  /\ length (logs (run (recordClick "unknown-code" Demo.meta1) Demo.w_custom))
     = S (length (logs Demo.w_custom)).
Proof.
  destruct (recordClick_unknown_shortcode Demo.w_custom "unknown-code" Demo.meta1) as [Hs Hl].
  - intros r [<-|[]]. vm_compute. discriminate.
  - split; [exact Hs|]. rewrite Hl, length_app. simpl. lia.
Defined.

(** C8 as stated fails on a record that already has clicks: the record of
    [w_clicked] has two, and one more call (N = 1) leaves it with
    clickCount 3 and three events. *)
Lemma recordClick_once_more_counts_three :
  reachable Demo.w_clicked
  /\ shortLinks Demo.w_clicked
     = [ {| id := "k3j9x2m7q"; originalUrl := "https://a.com"; shortcode := "validCode123";
            validityMinutes := 30; createdAt := 0; expiresAt := TimeValue 1800000;
            clickCount := 2; clicks := [Demo.meta1; Demo.meta2] |} ]
  /\ shortLinks (recordClicks "validCode123" [Demo.meta1] Demo.w_clicked)
     = [ {| id := "k3j9x2m7q"; originalUrl := "https://a.com"; shortcode := "validCode123";
            validityMinutes := 30; createdAt := 0; expiresAt := TimeValue 1800000;
            clickCount := 3; clicks := [Demo.meta1; Demo.meta2; Demo.meta1] |} ]
  /\ (exists r', shortLinks (recordClicks "validCode123" [Demo.meta1] Demo.w_clicked) !! 0%nat
                 = Some r' /\
                 clickCount r' <> Z.of_nat (length [Demo.meta1]) /\
                 clicks r' <> [Demo.meta1]).
Proof.
  split; [exact w_clicked_reachable|]. split; [vm_compute; reflexivity|].
  split; [vm_compute; reflexivity|].
  eexists. split; [vm_compute; reflexivity|]. split; discriminate.
Qed.

Lemma recordClick_N_times_witness :
  (exists r', shortLinks Demo.w_clicked !! 0%nat = Some r' /\
              clickCount r' = 2 /\ clicks r' = [Demo.meta1; Demo.meta2])
  /\ (exists r', shortLinks (recordClicks "validCode123" [Demo.meta1] Demo.w_clicked) !! 0%nat
                 = Some r' /\
                 clickCount r' = 3 /\ clicks r' = [Demo.meta1; Demo.meta2; Demo.meta1]).
Proof.
  split.
  - destruct (recordClick_N_times Demo.w_custom "validCode123" [Demo.meta1; Demo.meta2]
                0%nat Demo.link_custom) as (r' & Hi & _ & _ & _ & Hfresh & _).
    + vm_compute. reflexivity.
    + reflexivity.
    + exists r'. split; [exact Hi|].
      destruct Hfresh as (Hn & _ & Hl); [reflexivity | reflexivity |].
      split; [exact Hn | exact Hl].
  - destruct (recordClick_N_times Demo.w_clicked "validCode123" [Demo.meta1] 0%nat
                {| id := "k3j9x2m7q"; originalUrl := "https://a.com";
                   shortcode := "validCode123"; validityMinutes := 30; createdAt := 0;
                   expiresAt := TimeValue 1800000;
                   clickCount := 2; clicks := [Demo.meta1; Demo.meta2] |})
      as (r' & Hi & Hn & Hl & _).
    + vm_compute. reflexivity.
    + reflexivity.
    + exists r'. split; [exact Hi|]. split; [exact Hn | exact Hl].
Defined.

Lemma recordClick_frame_witness :
  (* the two records of w_two have the shortcodes BCDEFG and HIJKLM *)
  length (shortLinks (run (recordClick "HIJKLM" Demo.meta1) DemoPages.w_two)) = 2%nat
  /\ shortLinks (run (recordClick "HIJKLM" Demo.meta1) DemoPages.w_two) !! 0%nat
     = shortLinks DemoPages.w_two !! 0%nat
  /\ exists r', shortLinks (run (recordClick "HIJKLM" Demo.meta1) DemoPages.w_two) !! 1%nat
                = Some r' /\
                id r' = "k3j9x2m7q" /\ originalUrl r' = "https://a.com" /\
                shortcode r' = "HIJKLM" /\ validityMinutes r' = 30%Q /\
                createdAt r' = 1800000 /\ expiresAt r' = TimeValue 3600000 /\
                clickCount r' = 1 /\ clicks r' = [Demo.meta1].
Proof.
  assert (H0 : shortLinks DemoPages.w_two !! 0%nat
               = Some {| id := "k3j9x2m7q"; originalUrl := "https://a.com";
                         shortcode := "BCDEFG"; validityMinutes := 30; createdAt := 0;
                         expiresAt := TimeValue 1800000; clickCount := 0; clicks := [] |})
    by (vm_compute; reflexivity).
  assert (H1 : shortLinks DemoPages.w_two !! 1%nat = Some DemoPages.link_generated)
    by (vm_compute; reflexivity).
  destruct (recordClick_frame DemoPages.w_two "HIJKLM" Demo.meta1 0%nat _ H0)
    as (Hlen & r0 & Hi0 & Hother & _).
  destruct (recordClick_frame DemoPages.w_two "HIJKLM" Demo.meta1 1%nat _ H1)
    as (_ & r1 & Hi1 & _ & Hid & Hurl & Hc & Hv & Hcr & He & Hmatch).
  split; [rewrite Hlen; vm_compute; reflexivity|]. split.
  - rewrite Hi0, H0, (Hother ltac:(discriminate)). reflexivity.
  - exists r1. destruct (Hmatch eq_refl) as (Hn & Hl).
    split; [exact Hi1|]. split; [exact Hid|]. split; [exact Hurl|]. split; [exact Hc|].
    split; [exact Hv|]. split; [exact Hcr|]. split; [exact He|].
    split; [exact Hn | exact Hl].
Defined.

Lemma getShortLink_spec_witness :
  (* the record of w_custom expires at 1 800 000 ms; the clock reads exactly
     that at the first lookup and 2 400 000 ms at the second *)
  result (getShortLink "validCode123") Demo.w_custom = Some Demo.link_custom
  /\ (let w1 := run (getShortLink "validCode123") Demo.w_custom in
      result (getShortLink "validCode123") w1 = None
      /\ shortLinks (run (getShortLink "validCode123") w1) = [Demo.link_custom]
      /\ length (logs (run (getShortLink "validCode123") w1)) = S (length (logs w1)))
  /\ result (getShortLink "nosuchcode") Demo.w_custom = None.
Proof.
  assert (Hfirst : forall w, shortLinks w = [Demo.link_custom] ->
                             first_match (shortLinks w) "validCode123" 0 Demo.link_custom).
  { intros w ->. split; [reflexivity|]. split; [reflexivity|]. intros j r Hj. lia. }
  split; [|split].
  - destruct (getShortLink_spec Demo.w_custom "validCode123") as (Hactive & _ & _).
    apply (Hactive 0%nat Demo.link_custom 1800000).
    + apply Hfirst. vm_compute. reflexivity.
    + reflexivity.
    + vm_compute. discriminate.
  - cbv zeta.
    destruct (getShortLink_spec (run (getShortLink "validCode123") Demo.w_custom)
                "validCode123") as (_ & Hexpired & _).
    destruct (Hexpired 0%nat Demo.link_custom 1800000) as (Hnone & Hs & _ & Hl).
    + apply Hfirst. vm_compute. reflexivity.
    + reflexivity.
    + vm_compute. reflexivity.
    + split; [exact Hnone|]. split; [rewrite Hs; vm_compute; reflexivity|].
      rewrite Hl, length_app. simpl. lia.
  - destruct (getShortLink_spec Demo.w_custom "nosuchcode") as (_ & _ & Hmissing).
    apply Hmissing. intros r [<-|[]]. vm_compute. discriminate.
Defined.

Lemma getShortLink_twice_witness :
  @result _ (@getShortLink Demo.frozen "validCode123")
     (@run _ (@getShortLink Demo.frozen "validCode123") Demo.w_custom)
  = Some Demo.link_custom.
Proof.
  destruct (@getShortLink_twice Demo.frozen Demo.w_custom "validCode123") as [Heq _].
  - reflexivity.
  - rewrite Heq. vm_compute. reflexivity.
Defined.

Lemma demo_random_in_range : random_in_range.
Proof.
  intros k. unfold Math_random, Demo.runtime.
  pose proof (Nat.mod_upper_bound k 62 ltac:(discriminate)) as Hj. revert Hj.
  generalize (k mod 62)%nat. intros j Hj.
  do 62 (destruct j as [|j]; [vm_compute; repeat split; reflexivity|]).
  lia.
Qed.



(** C3 as stated fails: after typing the URL and entering 0 in the validity
    input the form holds validity 30, validation finds nothing, and the
    submission creates the record, expiring 30 minutes after its creation. *)
Lemma create_validity_zero_creates :
  Form.url Demo.form_zero_entered
  = {| form_originalUrl := "https://a.com"; form_validityMinutes := 30;
       form_customShortcode := "" |}
  /\ validateForm (shortLinks initial) (Form.url Demo.form_zero_entered) = []
  /\ exists w',
       handleSubmit 1 (Form.errors Demo.form_zero_entered)
                    (Form.url Demo.form_zero_entered) initial
       = Some (Created {| id := "k3j9x2m7q"; originalUrl := "https://a.com";
                          shortcode := "ABCDEF"; validityMinutes := 30;
                          createdAt := 0; expiresAt := TimeValue 1800000;
                          clickCount := 0; clicks := [] |}, w')
       /\ shortLinks w'
          = [ {| id := "k3j9x2m7q"; originalUrl := "https://a.com";
                 shortcode := "ABCDEF"; validityMinutes := 30;
                 createdAt := 0; expiresAt := TimeValue 1800000;
                 clickCount := 0; clicks := [] |} ].
Proof.
  split; [reflexivity|]. split; [vm_compute; reflexivity|].
  eexists. split; vm_compute; reflexivity.
Qed.

Lemma validity_zero_entered_witness :
  (* on a session that already has a record: the first generated code,
     BCDEFG, is unused *)
  validateForm (shortLinks Demo.w_custom) (Form.url Demo.form_zero_entered) = []
  /\ exists link w',
       handleSubmit 1 [] (Form.url Demo.form_zero_entered) Demo.w_custom
       = Some (Created link, w')
       /\ validityMinutes link = 30%Q
       /\ expiresAt link = new_Date (inject_Z (createdAt link) + 1800000)%Q
       /\ shortLinks w' = shortLinks Demo.w_custom ++ [link].
Proof.
  destruct (validity_zero_entered Demo.w_custom
              (handleUrlChange (originalUrl_changed "https://a.com") initial_form))
    as (_ & _ & _ & _ & _ & Hcreate).
  destruct Hcreate as (Hnil & Htotal).
  - discriminate.
  - reflexivity.
  - reflexivity.
  - split; [exact Hnil|].
    destruct (Htotal 1%nat [] 0%nat) as (link & w' & Hs & _ & Hv & He & _ & _ & Hsl).
    + lia.
    + vm_compute. reflexivity.
    + exists link, w'. auto.
Defined.

Lemma validateForm_accumulates_witness :
  (In "URL is required" (validateForm (shortLinks initial) Demo.form_bad)
   /\ ~ In "Invalid URL format" (validateForm (shortLinks initial) Demo.form_bad))
  /\ validateForm (shortLinks initial) Demo.form_bad
     = [ "URL is required"; "Validity must be a positive integer";
         "Shortcode must be 3-20 alphanumeric characters" ]
  /\ exists w', handleSubmit 1 [] Demo.form_bad initial
                = Some (ValidationError (validateForm (shortLinks initial) Demo.form_bad), w')
                /\ shortLinks w' = shortLinks initial.
Proof.
  destruct (validateForm_accumulates initial Demo.form_bad)
    as (Hempty & _ & _ & _ & _ & _ & _ & _ & Hfail).
  split; [split; apply Hempty; reflexivity|].
  split; [vm_compute; reflexivity|].
  apply Hfail. vm_compute. discriminate.
Defined.


Lemma generated_shortcode_fresh_witness :
  (* the first attempt, BCDEFG, is taken; the second one is returned *)
  exists link w',
    handleSubmit 2 [] Demo.form_a Demo.w_taken = Some (Created link, w')
    /\ String.length (shortcode link) = 6%nat
    /\ validateShortcode (shortcode link) = true
    /\ (forall r, In r (shortLinks Demo.w_taken) -> shortcode r <> shortcode link).
Proof.
  destruct (generated_shortcode_fresh 2 [] Demo.form_a Demo.w_taken
              demo_random_in_range eq_refl) as [Hprops Htotal].
  destruct (Htotal ltac:(vm_compute; reflexivity) 1%nat ltac:(lia)
              ltac:(vm_compute; reflexivity)) as (link & w' & Hs).
  exists link, w'. split; [exact Hs|].
  destruct (Hprops link w' Hs) as (Hlen & _ & Hvalid & Hfresh & _).
  auto.
Defined.

(** The product is rounded before its floor is taken. For the double
    3486657776028771 / 2^52 the exact product with 62 lies just below 48
    and the double product is 48: the character picked is the one at index
    48. Likewise the double nearest to 0.6 times 5 is the double 3. *)
Example pick_rounds_the_product :
  in_unit_interval (binary_normalize 53 1024 3486657776028771 (-52) false)
  /\ 3486657776028771 * 62 / 2 ^ 52 = 47
  /\ Math_floor (Number_mul (binary_normalize 53 1024 3486657776028771 (-52) false)
                            (Number_of_Z 62)) = Floor 48
  /\ pick (binary_normalize 53 1024 3486657776028771 (-52) false) = "w".
Proof. repeat split; vm_compute; reflexivity. Qed.

Example location_rounds_the_product :
  in_unit_interval (SFdiv 53 1024 (Number_of_Z 6) (Number_of_Z 10))
  /\ at_floored locations
       (Math_floor (Number_mul (SFdiv 53 1024 (Number_of_Z 6) (Number_of_Z 10))
                               (Number_of_Z 5)))
     = Some "Sydney, AU".
Proof. repeat split; vm_compute; reflexivity. Qed.

Example generated_after_collision :
  exists link w',
    handleSubmit 2 [] Demo.form_a Demo.w_taken = Some (Created link, w')
    /\ shortcode link = "HIJKLM".
Proof. do 2 eexists. split; [vm_compute; reflexivity | reflexivity]. Qed.

Example still_colliding_after_one_iteration :
  handleSubmit 1 [] Demo.form_a Demo.w_taken = None.
Proof. vm_compute. reflexivity. Qed.

End Examples.

(** ** Sessions, step by step *)

Section PagesFacts.
Context {rt : Runtime}.



Lemma kept_refl r : kept r r.
Proof.
  unfold kept, same_identity.
  split; [repeat split | split; [lia | reflexivity]].
Qed.


Lemma kept_click code metadata r : kept r (click code metadata r).
Proof.
  unfold click. destruct (String.eqb _ _); [|apply kept_refl].
  unfold kept, same_identity. simpl.
  split; [repeat split | split; [lia | now apply prefix_app_r]].
Qed.

Lemma all_kept_same w w' : shortLinks w' = shortLinks w -> all_kept w w'.
Proof. intros Heq i r Hi. exists r. rewrite Heq. split; [exact Hi | apply kept_refl]. Qed.

Lemma step_all_kept w w' : step w w' -> all_kept w w'.
Proof.
  intros Hstep. destruct Hstep as [w fuel errors url o w' Hs|w code|w code m|w l msg d].
  - apply handleSubmit_shortLinks in Hs. destruct o as [msgs|link].
    + apply all_kept_same, Hs.
    + destruct Hs as (Hs & _). intros i r Hi. exists r. rewrite Hs.
      split; [apply lookup_app_l_Some, Hi | apply kept_refl].
  - apply all_kept_same, getShortLink_shortLinks.
  - intros i r Hi. exists (click code m r). rewrite recordClick_lookup, Hi.
    split; [reflexivity | apply kept_click].
  - apply all_kept_same, log_shortLinks.
Qed.

(** X1. Whatever happens in a session, a record stays in the list at the
    index it was created at, with its id, originalUrl, shortcode, createdAt
    and expiresAt; its clickCount never decreases and its clicks are only
    extended at the end. No operation deletes or reorders records, expired
    or not. *)
Theorem records_never_removed w w' (i : nat) r :
  rtc step w w' -> shortLinks w !! i = Some r ->
  (length (shortLinks w) <= length (shortLinks w'))%nat
  /\ exists r', shortLinks w' !! i = Some r' /\
       id r' = id r /\ originalUrl r' = originalUrl r /\ shortcode r' = shortcode r /\
       createdAt r' = createdAt r /\ expiresAt r' = expiresAt r /\
       clickCount r <= clickCount r' /\ clicks r `prefix_of` clicks r'.
Proof.
  intros Hsteps. revert i r.
  induction Hsteps as [w|w w1 w' Hstep _ IH]; intros i r Hi.
  - split; [lia|]. exists r. split; [exact Hi|].
    do 5 (split; [reflexivity|]). split; [lia | reflexivity].
  - destruct (step_all_kept _ _ Hstep i r Hi) as (r1 & Hi1 & Hk1).
    destruct (IH i r1 Hi1) as (Hlen & r' & Hi' & H1 & H2 & H3 & H4 & H5 & H6 & H7).
    split.
    + etrans; [|exact Hlen].
      destruct (Nat.le_gt_cases (length (shortLinks w)) (length (shortLinks w1)))
        as [Hle|Hgt]; [exact Hle|].
      exfalso.
      destruct (lookup_lt_is_Some_2 (shortLinks w) (length (shortLinks w1)) Hgt) as [r0 Hr0].
      destruct (step_all_kept _ _ Hstep _ r0 Hr0) as (r0' & Hr0' & _).
      apply lookup_lt_Some in Hr0'. lia.
    + exists r'. split; [exact Hi'|].
      destruct Hk1 as ((?&?&?&?&?) & ? & ?).
      do 5 (split; [congruence|]). split; [lia | etrans; eassumption].
Qed.

Lemma generate_unused_world fuel used w code w1 :
  generate_unused fuel used w = Some (code, w1) ->
  logs w1 = logs w /\ dates_read w1 = dates_read w /\ shortLinks w1 = shortLinks w.
Proof.
  intros Hg. pose proof (generate_unused_spec fuel used w) as Hspec.
  rewrite Hg in Hspec. destruct Hspec as (k & _ & _ & _ & _ & ->). auto.
Qed.

Lemma handleSubmit_logs fuel errors url w o w' :
  handleSubmit fuel errors url w = Some (o, w') ->
  exists entries,
    logs w' = logs w ++ entries /\
    match o with
    | ValidationError _ =>
        exists t, entries = [ {| LogEntry.timestamp := t; LogEntry.level := error;
                                 LogEntry.message := "Form validation failed";
                                 LogEntry.data := DErrors errors |} ]
    | Created link =>
        exists t1 t2,
          entries = [ {| LogEntry.timestamp := t1; LogEntry.level := info;
                         LogEntry.message := "Added 1 short links";
                         LogEntry.data := DCount 1 |};
                      {| LogEntry.timestamp := t2; LogEntry.level := info;
                         LogEntry.message := "Successfully created short link";
                         LogEntry.data := DShortcode (shortcode link) |} ]
    end.
Proof.
  unfold handleSubmit. intros H.
  destruct (validateForm (shortLinks w) url) as [|e errs]; simpl in H.
  - assert (Hgen : exists code w1,
               logs w1 = logs w /\
               Some ((createdAt ← new_Date_now;
                      let expiresAt :=
                        new_Date (inject_Z createdAt + form_validityMinutes url * 60 * 1000)%Q in
                      r ← random;
                      let newShortLink :=
                        {| id := String.substring 2 9 (Number_toString36 r);
                           originalUrl := form_originalUrl url;
                           shortcode := code;
                           validityMinutes := form_validityMinutes url;
                           createdAt := createdAt;
                           expiresAt := expiresAt;
                           clickCount := 0;
                           clicks := [] |} in
                      addShortLinks [newShortLink];;
                      log info "Successfully created short link" (DShortcode code);;
                      mret (Created newShortLink)) w1) = Some (o, w')).
    { destruct (truthy (form_customShortcode url)); simpl in H.
      - exists (form_customShortcode url), w. split; [reflexivity | exact H].
      - destruct (generate_unused _ _ w) as [[code w1]|] eqn:Hg; [|discriminate].
        exists code, w1. split; [|exact H]. eapply generate_unused_world; exact Hg. }
    destruct Hgen as (code & w1 & Hl & Heq). injection Heq as <- <-.
    eexists. split; [|do 2 eexists; reflexivity].
    cbn [logs shortcode]. rewrite Hl, <- app_assoc. reflexivity.
  - injection H as <- <-. eexists. split; [apply log_logs|]. eexists. reflexivity.
Qed.

Lemma getShortLink_logs code w :
  exists entries, logs (run (getShortLink code) w) = logs w ++ entries /\
                  (length entries <= 1)%nat.
Proof.
  unfold run.
  destruct (List.find (fun r => String.eqb (shortcode r) code) (shortLinks w)) as [l|] eqn:Hf.
  - rewrite (getShortLink_found code w l Hf). destruct (Date_gt _ _); cbn [snd logs].
    + eexists. split; [reflexivity | simpl; lia].
    + exists []. split; [now rewrite app_nil_r | simpl; lia].
  - rewrite (getShortLink_missing code w Hf). exists []. split; [now rewrite app_nil_r | simpl; lia].
Qed.

Lemma step_logs w w' : step w w' -> logs w `prefix_of` logs w'.
Proof.
  intros Hstep. destruct Hstep as [w fuel errors url o w' Hs|w code|w code m|w l msg d].
  - destruct (handleSubmit_logs _ _ _ _ _ _ Hs) as (entries & -> & _). now apply prefix_app_r.
  - destruct (getShortLink_logs code w) as (entries & -> & _). now apply prefix_app_r.
  - rewrite recordClick_logs. now apply prefix_app_r.
  - rewrite log_logs. now apply prefix_app_r.
Qed.

(** X2. The log is append-only: over any sequence of operations the earlier
    log is a prefix of the later one. A failed submission appends exactly one
    error entry, and it carries the form's errors of the render before the
    submission, not the messages just found; a successful one appends the
    two info entries "Added 1 short links" and "Successfully created short
    link". *)
Theorem logs_append_only w w' :
  rtc step w w' ->
  logs w `prefix_of` logs w'
  /\ (forall fuel errors url o w'',
        handleSubmit fuel errors url w' = Some (o, w'') ->
        match o with
        | ValidationError _ =>
            exists t, logs w'' = logs w' ++
              [ {| LogEntry.timestamp := t; LogEntry.level := error;
                   LogEntry.message := "Form validation failed";
                   LogEntry.data := DErrors errors |} ]
        | Created link =>
            exists t1 t2, logs w'' = logs w' ++
              [ {| LogEntry.timestamp := t1; LogEntry.level := info;
                   LogEntry.message := "Added 1 short links";
                   LogEntry.data := DCount 1 |};
                {| LogEntry.timestamp := t2; LogEntry.level := info;
                   LogEntry.message := "Successfully created short link";
                   LogEntry.data := DShortcode (shortcode link) |} ]
        end).
Proof.
  intros Hsteps. split.
  - induction Hsteps as [w|w w1 w' Hstep _ IH]; [reflexivity|].
    etrans; [apply step_logs, Hstep | exact IH].
  - intros fuel errors url o w'' Hs.
    destruct (handleSubmit_logs _ _ _ _ _ _ Hs) as (entries & -> & Ho).
    destruct o as [msgs|link].
    + destruct Ho as (t & ->). eauto.
    + destruct Ho as (t1 & t2 & ->). eauto.
Qed.

(** ** Uniqueness, and looking up what was created *)

Lemma created_is_fresh fuel errors url w link w' :
  handleSubmit fuel errors url w = Some (Created link, w') ->
  forall r, In r (shortLinks w) -> shortcode r <> shortcode link.
Proof.
  intros Hs.
  apply handleSubmit_inv in Hs as [(_ & Ho & _)|(Hv & code & w1 & Hg & Ho & _)];
    [discriminate|].
  injection Ho as ->. cbn [shortcode].
  destruct (validateForm_spec (shortLinks w) url) as (_ & _ & _ & H4 & H5 & _).
  rewrite Hv in H4, H5.
  destruct (truthy (form_customShortcode url)) eqn:Ht.
  - destruct Hg as [-> _]. apply truthy_true_iff in Ht.
    destruct (validateShortcode (form_customShortcode url)) eqn:Hvs.
    + intros r Hin Heq. apply (proj2 H5). eauto.
    + exfalso. apply (proj2 H4). auto.
  - apply generate_unused_some in Hg as (k & _ & -> & Hfree).
    apply has_unused, Hfree.
Qed.




Lemma first_match_new links link :
  (forall r, In r links -> shortcode r <> shortcode link) ->
  first_match (links ++ [link]) (shortcode link) (length links) link.
Proof.
  intros Hfresh. split; [|split; [reflexivity|]].
  - rewrite lookup_app_r by lia. now rewrite Nat.sub_diag.
  - intros j r Hj Hr. rewrite lookup_app_l in Hr by exact Hj.
    apply Hfresh, list_elem_of_In, (list_elem_of_lookup_2 _ j), Hr.
Qed.

(** X4. Creation followed by lookup: right after handleSubmit created a
    record, getShortLink on its shortcode returns that very record unless the
    clock is already past its expiresAt, in which case it returns nothing. *)
Theorem created_link_lookup fuel errors url w link w' :
  handleSubmit fuel errors url w = Some (Created link, w') ->
  result (getShortLink (shortcode link)) w'
  = if Date_gt (Date_now (dates_read w')) (expiresAt link) then None else Some link.
Proof.
  intros Hs. pose proof (created_is_fresh _ _ _ _ _ _ Hs) as Hfresh.
  apply handleSubmit_shortLinks in Hs as (Hs & _).
  pose proof (first_match_new (shortLinks w) link Hfresh) as Hm. rewrite <- Hs in Hm.
  unfold result. rewrite (getShortLink_found _ w' link (find_first_match _ _ _ _ Hm)).
  destruct (Date_gt _ _); reflexivity.
Qed.

Lemma find_is_first_match links code r :
  List.find (fun l => String.eqb (shortcode l) code) links = Some r ->
  exists i : nat, first_match links code i r.
Proof.
  induction links as [|a links IH]; [discriminate|]. simpl.
  destruct (String.eqb_spec (shortcode a) code) as [Heq|Hne].
  - intros [= <-]. exists 0%nat. split; [reflexivity|]. split; [exact Heq|].
    intros j r Hj. lia.
  - intros Hf. destruct (IH Hf) as (i & Hi & Hc & Hbefore).
    exists (S i). split; [exact Hi|]. split; [exact Hc|].
    intros [|j] r' Hj Hr'.
    + injection Hr' as <-. exact Hne.
    + apply (Hbefore j r'); [lia | exact Hr'].
Qed.

Lemma getShortLink_some w code r :
  result (getShortLink code) w = Some r ->
  (exists i : nat, first_match (shortLinks w) code i r)
  /\ Date_gt (Date_now (dates_read w)) (expiresAt r) = false.
Proof.
  unfold result.
  destruct (List.find (fun l => String.eqb (shortcode l) code) (shortLinks w)) as [l|] eqn:Hf.
  - rewrite (getShortLink_found code w l Hf).
    destruct (Date_gt (Date_now (dates_read w)) (expiresAt l)) eqn:Hgt; [discriminate|].
    cbn [fst]. intros [= <-]. split; [apply find_is_first_match, Hf | exact Hgt].
  - rewrite (getShortLink_missing code w Hf). discriminate.
Qed.

(** X5. A lookup never invents anything: when getShortLink returns a record,
    it is a record of the list, the first one with exactly the requested
    shortcode, and the clock read by the lookup is not past its expiresAt;
    the records and the log are left as they were. *)
Theorem lookup_sound w code r :
  result (getShortLink code) w = Some r ->
  (exists i : nat, first_match (shortLinks w) code i r)
  /\ Date_gt (Date_now (dates_read w)) (expiresAt r) = false
  /\ shortLinks (run (getShortLink code) w) = shortLinks w
  /\ logs (run (getShortLink code) w) = logs w.
Proof.
  unfold result, run.
  destruct (List.find (fun l => String.eqb (shortcode l) code) (shortLinks w)) as [l|] eqn:Hf.
  - rewrite (getShortLink_found code w l Hf).
    destruct (Date_gt (Date_now (dates_read w)) (expiresAt l)) eqn:Hgt; [discriminate|].
    cbn [fst snd]. intros [= <-].
    split; [apply find_is_first_match, Hf|]. auto.
  - rewrite (getShortLink_missing code w Hf). discriminate.
Qed.


(** ** Counting clicks *)



(** X8. Clicks on different shortcodes do not interfere: recording a click
    for one shortcode and then one for another leaves the same records as
    recording them in the other order. *)
Theorem recordClick_commutes w code1 meta1 code2 meta2 :
  code1 <> code2 ->
  shortLinks (run (recordClick code2 meta2) (run (recordClick code1 meta1) w))
  = shortLinks (run (recordClick code1 meta1) (run (recordClick code2 meta2) w)).
Proof.
  intros Hne. rewrite !recordClick_shortLinks, !map_map.
  apply map_ext. intros r.
  destruct (String.eqb_spec (shortcode r) code1) as [H1|H1];
    destruct (String.eqb_spec (shortcode r) code2) as [H2|H2].
  - congruence.
  - rewrite (click_other code2 meta2 r H2).
    apply click_other. now rewrite click_shortcode.
  - rewrite (click_other code1 meta1 r H1). symmetry.
    apply click_other. now rewrite click_shortcode.
  - now rewrite !click_other by (rewrite ?click_shortcode; assumption).
Qed.

(** ** Expiry dates *)

Lemma Qtrunc_inject_Z x z : (x == inject_Z z)%Q -> Qtrunc x = z.
Proof.
  intros Hx. unfold Qtrunc. destruct (Qle_bool 0 x).
  - rewrite Hx. apply Qfloor_Z.
  - rewrite Hx. apply Qceiling_Z.
Qed.

Lemma new_Date_inject_Z x z :
  (x == inject_Z z)%Q ->
  new_Date x = if Z.abs z <=? 8640000000000000 then TimeValue z else InvalidDate.
Proof.
  intros Hx. unfold new_Date. rewrite (Qtrunc_inject_Z x z Hx).
  assert (Hiff : Qle_bool (Qabs x) 8640000000000000 = true <-> Z.abs z <= 8640000000000000).
  { rewrite Qle_bool_iff, Hx.
    change (Qabs (inject_Z z)) with (inject_Z (Z.abs z)).
    change (8640000000000000%Q) with (inject_Z 8640000000000000).
    rewrite <- Zle_Qle. reflexivity. }
  destruct (Qle_bool (Qabs x) 8640000000000000);
    destruct (Z.leb_spec (Z.abs z) 8640000000000000) as [Hle|Hgt]; try reflexivity.
  - exfalso. assert (Z.abs z <= 8640000000000000) by (apply Hiff; reflexivity). lia.
  - exfalso. apply Hiff in Hle. discriminate.
Qed.

Lemma created_expiresAt fuel errors url w link w' m :
  handleSubmit fuel errors url w = Some (Created link, w') ->
  (form_validityMinutes url == inject_Z m)%Q ->
  expiresAt link
  = if Z.abs (createdAt link + m * 60000) <=? 8640000000000000
    then TimeValue (createdAt link + m * 60000) else InvalidDate.
Proof.
  intros Hs Hv.
  apply handleSubmit_inv in Hs as [(_ & Ho & _)|(_ & code & w1 & _ & Ho & _)];
    [discriminate|].
  injection Ho as ->. cbn [expiresAt createdAt].
  apply new_Date_inject_Z. rewrite Hv.
  unfold Qeq, Qplus, Qmult, inject_Z. cbn [Qnum Qden]. lia.
Qed.

(** X9. The expiry of a created record, for a validity of [m] minutes ([m]
    an integer): expiresAt is createdAt + m * 60 000 ms when that time is
    within the range of Date, and a lookup then finds the record at every
    clock reading up to and including that time and no longer after it. *)
Theorem created_link_expiry fuel errors url w link w' m :
  handleSubmit fuel errors url w = Some (Created link, w') ->
  (form_validityMinutes url == inject_Z m)%Q ->
  Z.abs (createdAt link + m * 60000) <= 8640000000000000 ->
  expiresAt link = TimeValue (createdAt link + m * 60000)
  /\ (Date_now (dates_read w') <= createdAt link + m * 60000 ->
      result (getShortLink (shortcode link)) w' = Some link)
  /\ (createdAt link + m * 60000 < Date_now (dates_read w') ->
      result (getShortLink (shortcode link)) w' = None).
Proof.
  intros Hs Hv Hrange.
  pose proof (created_expiresAt _ _ _ _ _ _ m Hs Hv) as He.
  destruct (Z.leb_spec (Z.abs (createdAt link + m * 60000)) 8640000000000000); [|lia].
  pose proof (created_is_fresh _ _ _ _ _ _ Hs) as Hfresh.
  apply handleSubmit_shortLinks in Hs as (Hs & _).
  pose proof (first_match_new (shortLinks w) link Hfresh) as Hm. rewrite <- Hs in Hm.
  split; [exact He|].
  unfold result. rewrite (getShortLink_found _ w' link (find_first_match _ _ _ _ Hm)).
  rewrite He. unfold Date_gt. split; intros Hnow.
  - destruct (Z.ltb_spec (createdAt link + m * 60000) (Date_now (dates_read w')));
      [lia | reflexivity].
  - destruct (Z.ltb_spec (createdAt link + m * 60000) (Date_now (dates_read w')));
      [reflexivity | lia].
Qed.



(** ** The validity input *)

(** X11. What the validity input lets through: the field stores
    parseInt(text) || 30, so an empty or non-numeric text and the number 0
    all store 30; the message "Validity must be a positive integer" then
    appears exactly for a negative number, and never for 0. Changing the
    field keeps the other two and clears the success message. *)
Theorem validity_input_rule parsed f links :
  let f' := validityInput_changed parsed f in
  (In "Validity must be a positive integer" (validateForm links (Form.url f'))
   <-> exists n, parsed = Some n /\ n < 0)
  /\ (parsed = None \/ parsed = Some 0 -> form_validityMinutes (Form.url f') = 30%Q)
  /\ form_originalUrl (Form.url f') = form_originalUrl (Form.url f)
  /\ form_customShortcode (Form.url f') = form_customShortcode (Form.url f)
  /\ Form.successMessage f' = None.
Proof.
  cbv zeta. unfold validityInput_changed, handleUrlChange. cbn [Form.url Form.successMessage
    form_originalUrl form_customShortcode form_validityMinutes].
  split; [|split; [|auto]].
  - destruct (validateForm_spec links
                {| form_originalUrl := form_originalUrl (Form.url f);
                   form_validityMinutes := validityFromInput parsed;
                   form_customShortcode := form_customShortcode (Form.url f) |})
      as (_ & _ & Hv & _).
    fold msg_validity. rewrite Hv. cbn [form_validityMinutes].
    unfold validityFromInput. destruct parsed as [n|].
    + destruct (Z.eqb_spec n 0) as [->|Hn].
      * change 30%Q with (inject_Z 30). rewrite validity_violated_integer.
        split; [lia|]. intros (n & [= <-] & Hn). lia.
      * rewrite validity_violated_integer. split; [eauto|].
        intros (n' & [= <-] & Hn'). exact Hn'.
    + change 30%Q with (inject_Z 30). rewrite validity_violated_integer.
      split; [lia|]. intros (n & Hn & _). discriminate.
  - intros [-> | ->]; reflexivity.
Qed.

(** ** The alphabet of shortcodes *)

Lemma alnum_existsb c :
  alnum c = existsb (Ascii.eqb c) (list_ascii_of_string chars).
Proof.
  destruct c as [[] [] [] [] [] [] [] []]; vm_compute; reflexivity.
Qed.

Lemma alnum_iff_chars c : alnum c = true <-> In c (list_ascii_of_string chars).
Proof.
  rewrite alnum_existsb, existsb_exists. split.
  - intros (x & Hin & Heq). apply Ascii.eqb_eq in Heq. now subst.
  - intros Hin. exists c. split; [exact Hin | apply Ascii.eqb_refl].
Qed.

(** X12. The pattern of validateShortcode and the alphabet of
    generateShortcode are the same 62 characters: a string passes
    validateShortcode exactly when it has between 3 and 20 characters, all
    of them characters of [chars]. *)
Theorem validateShortcode_iff code :
  validateShortcode code = true <->
  (3 <= String.length code <= 20)%nat
  /\ forall c, In c (list_ascii_of_string code) -> In c (list_ascii_of_string chars).
Proof.
  unfold validateShortcode.
  rewrite !Bool.andb_true_iff, !Nat.leb_le, forallb_forall.
  split.
  - intros [Hlen Hall]. split; [exact Hlen|].
    intros c Hc. apply alnum_iff_chars, Hall, Hc.
  - intros [Hlen Hall]. split; [exact Hlen|].
    intros c Hc. apply alnum_iff_chars, Hall, Hc.
Qed.

(** ** The redirect page *)

Lemma getSimulatedLocation_eq w :
  getSimulatedLocation w
  = (at_floored locations
       (Math_floor (Number_mul (Math_random (randoms_drawn w)) (Number_of_Z 5))),
     drawn 1 w).
Proof. reflexivity. Qed.

Lemma at_index_locations (i : Z) :
  0 <= i < 5 -> exists place, at_index locations i = Some place /\ In place locations.
Proof.
  unfold at_index. intros Hi. destruct (Z.ltb_spec i 0) as [|_]; [lia|].
  assert (Hn : (Z.to_nat i < 5)%nat) by lia.
  revert Hn. generalize (Z.to_nat i). intros n Hn.
  do 5 (destruct n as [|n]; [eexists; split; [reflexivity | simpl; tauto] |]).
  lia.
Qed.

Lemma floor_location (r : spec_float) :
  in_unit_interval r ->
  exists place,
    at_floored locations (Math_floor (Number_mul r (Number_of_Z 5))) = Some place
    /\ In place locations.
Proof.
  intros Hr.
  destruct (floor_scaled_range r 5 5629499534213120 50 Hr) as (z & Hz & Hrange).
  - vm_compute. reflexivity.
  - split; discriminate.
  - vm_compute. reflexivity.
  - split; vm_compute; reflexivity.
  - rewrite Hz. apply at_index_locations, Hrange.
Qed.

(** X13. getSimulatedLocation returns one of its five locations whenever
    the double Math.random() gives is in [0, 1), whatever the rounding of
    the product with 5; for the double 1 the index is 5, out of bounds, and
    the location is undefined. It consumes one random number and changes
    nothing else. *)
Theorem simulated_location_defined w :
  let r := Math_random (randoms_drawn w) in
  (in_unit_interval r ->
   exists place, result getSimulatedLocation w = Some place /\ In place locations)
  /\ (r = Number_of_Z 1 -> result getSimulatedLocation w = None)
  /\ run getSimulatedLocation w = drawn 1 w.
Proof.
  cbv zeta. unfold result, run. rewrite getSimulatedLocation_eq. cbn [fst snd].
  split; [|split; [|reflexivity]].
  - apply floor_location.
  - intros ->. vm_compute. reflexivity.
Qed.

Lemma getShortLink_frame code w :
  shortLinks (snd (getShortLink code w)) = shortLinks w
  /\ randoms_drawn (snd (getShortLink code w)) = randoms_drawn w.
Proof.
  destruct (List.find (fun r => String.eqb (shortcode r) code) (shortLinks w)) as [l|] eqn:Hf.
  - rewrite (getShortLink_found code w l Hf). destruct (Date_gt _ _); split; reflexivity.
  - rewrite (getShortLink_missing code w Hf). split; reflexivity.
Qed.

(** The three ways the effect of RedirectHandler can end. *)
Lemma redirectEffect_inv sc w view w' :
  redirectEffect sc w = Some (view, w') ->
  ((sc = None \/ sc = Some "") /\ view = RedirectError "Invalid shortcode" /\ w' = w)
  \/ (exists code,
        sc = Some code /\ code <> "" /\ result (getShortLink code) w = None /\
        view = RedirectError "Link not found or expired" /\
        w' = run (log warning "Link not found or expired" (DShortcode code))
                 (run (getShortLink code) w))
  \/ (exists code l place t,
        sc = Some code /\ code <> "" /\ result (getShortLink code) w = Some l /\
        view = Redirecting (originalUrl l) /\
        at_floored locations
          (Math_floor (Number_mul (Math_random (randoms_drawn w)) (Number_of_Z 5)))
        = Some place /\
        shortLinks w'
        = map (click code {| timestamp := t; referrer := "Direct"; location := place |})
              (shortLinks w)).
Proof.
  unfold redirectEffect. destruct sc as [code|]; [|intros [= <- <-]; left; auto].
  destruct (truthy code) eqn:Ht; cbn [negb].
  - apply truthy_true_iff in Ht.
    pose proof (getShortLink_frame code w) as [Hsl Hrd].
    destruct (getShortLink code w) as [[l|] w1] eqn:Hg; cbn [fst snd] in *.
    + unfold new_Date_now. rewrite getSimulatedLocation_eq. cbn [randoms_drawn].
      rewrite Hrd.
      destruct (at_floored locations _) as [place|] eqn:Hplace; [|discriminate].
      intros [= <- <-]. right. right. exists code, l, place. eexists.
      split; [reflexivity|]. split; [exact Ht|].
      split; [unfold result; rewrite Hg; reflexivity|].
      split; [reflexivity|]. split; [reflexivity|].
      rewrite recordClick_shortLinks. cbn [shortLinks drawn]. rewrite Hsl. reflexivity.
    + intros [= <- <-]. right. left. exists code.
      split; [reflexivity|]. split; [exact Ht|].
      split; [unfold result; rewrite Hg; reflexivity|].
      split; [reflexivity|]. unfold run. rewrite Hg. reflexivity.
  - apply truthy_false_iff in Ht. subst code. intros [= <- <-]. left. auto.
Qed.

(** X14. One run of the effect of RedirectHandler. Given a double of
    Math.random() in [0, 1) it always ends, in one of two ways. It shows the
    redirect only for a non-empty shortcode whose lookup returned a record
    (so one that is not expired at that moment), with that record's
    originalUrl as the target, and then exactly one click, with referrer
    "Direct" and one of the five locations, is recorded on the records with
    that shortcode. Otherwise it shows an error and the records are left as
    they were: no click is recorded for a missing, unknown or expired
    shortcode. *)
Theorem redirect_effect_spec sc w :
  in_unit_interval (Math_random (randoms_drawn w)) ->
  exists view w',
    redirectEffect sc w = Some (view, w') /\
    match view with
    | Redirecting target =>
        exists code l place t,
          sc = Some code /\ code <> "" /\
          result (getShortLink code) w = Some l /\
          Date_gt (Date_now (dates_read w)) (expiresAt l) = false /\
          target = originalUrl l /\ In place locations /\
          shortLinks w'
          = map (click code {| timestamp := t; referrer := "Direct"; location := place |})
                (shortLinks w)
    | RedirectError message =>
        shortLinks w' = shortLinks w /\
        (message = "Invalid shortcode" /\ w' = w
         \/ message = "Link not found or expired" /\
            exists code, sc = Some code /\ result (getShortLink code) w = None)
    end.
Proof.
  intros Hr. destruct (floor_location _ Hr) as (place & Hplace & Hin).
  assert (Hsome : exists view w', redirectEffect sc w = Some (view, w')).
  { unfold redirectEffect. destruct sc as [code|]; [|eauto].
    destruct (truthy code); cbn [negb]; [|eauto].
    pose proof (getShortLink_frame code w) as [_ Hrd].
    destruct (getShortLink code w) as [[l|] w1]; cbn [snd] in Hrd; [|eauto].
    unfold new_Date_now. rewrite getSimulatedLocation_eq. cbn [randoms_drawn].
    rewrite Hrd, Hplace. eauto. }
  destruct Hsome as (view & w' & Heff). exists view, w'. split; [exact Heff|].
  apply redirectEffect_inv in Heff
    as [(Hsc & -> & ->)|[(code & -> & Hne & Hnone & -> & ->)|
                         (code & l & place' & t & -> & Hne & Hfound & -> & Hplace' & Hsl)]].
  - split; [reflexivity|]. left. auto.
  - split; [|right; eauto].
    rewrite log_shortLinks. apply getShortLink_shortLinks.
  - exists code, l, place', t.
    rewrite Hplace in Hplace'. injection Hplace' as <-.
    destruct (getShortLink_some w code l Hfound) as (_ & Hgt).
    auto 10.
Qed.


(** ** The form *)

(** X16. "Recently Created Links" shows the last three records in creation
    order, all of them when there are fewer, and right after a successful
    submission the record just created is the last one shown. *)
Theorem recent_links_show_newest fuel errors url w link w' :
  handleSubmit fuel errors url w = Some (Created link, w') ->
  last (recentLinks (shortLinks w')) = Some link
  /\ length (recentLinks (shortLinks w')) = Nat.min 3 (length (shortLinks w'))
  /\ recentLinks (shortLinks w') `suffix_of` shortLinks w'.
Proof.
  intros Hs. apply handleSubmit_shortLinks in Hs as (-> & _).
  unfold recentLinks, slice_last. split; [|split].
  - rewrite length_app. cbn [length]. rewrite drop_app_le by lia. apply last_snoc.
  - rewrite length_drop. lia.
  - apply suffix_drop.
Qed.

Lemma validateForm_blank links : validateForm links blank_url = ["URL is required"].
Proof. reflexivity. Qed.

(** X17. Submitting twice: a successful submission blanks the form and sets
    the success message, so submitting again without typing anything fails
    with exactly "URL is required", creates nothing, keeps the success
    message on display beside the error, and its log entry carries the
    errors of the render before it (none), not the message just found. A
    failed submission keeps what was typed and stores the messages. *)
Theorem submit_twice fuel f w link w1 :
  handleSubmit fuel (Form.errors f) (Form.url f) w = Some (Created link, w1) ->
  let f1 := {| Form.url := blank_url; Form.errors := []; Form.loading := false;
               Form.successMessage := Some "Successfully created short link!" |} in
  submit fuel f w = Some (f1, w1)
  /\ forall fuel', exists w2,
       submit fuel' f1 w1
       = Some ({| Form.url := blank_url; Form.errors := ["URL is required"];
                  Form.loading := false;
                  Form.successMessage := Some "Successfully created short link!" |}, w2)
       /\ shortLinks w2 = shortLinks w1
       /\ logs w2 = logs w1 ++ [ {| LogEntry.timestamp := Date_now (dates_read w1);
                                    LogEntry.level := error;
                                    LogEntry.message := "Form validation failed";
                                    LogEntry.data := DErrors [] |} ].
Proof.
  intros Hs. cbv zeta. split.
  - unfold submit. rewrite Hs. reflexivity.
  - intros fuel'. eexists. unfold submit. cbn [Form.errors Form.url].
    rewrite handleSubmit_invalid by (rewrite validateForm_blank; discriminate).
    rewrite validateForm_blank. split; [reflexivity|]. split; reflexivity.
Qed.

(** X18. The retry loop has no bound of its own: when the inputs are valid,
    no custom shortcode is given and every code the generator produces is
    already in use, handleSubmit is still in its loop after any number of
    iterations, and conversely it only keeps looping while every attempt so
    far collided. *)
Theorem generation_never_ends fuel errors url w :
  validateForm (shortLinks w) url = [] -> form_customShortcode url = "" ->
  (handleSubmit fuel errors url w = None <->
   forall k, (k < fuel)%nat ->
             has (usedShortcodes_of (shortLinks w)) (attempt w k) = true).
Proof.
  intros Hv Hcustom. apply truthy_false_iff in Hcustom.
  unfold handleSubmit. rewrite Hv, Hcustom. cbn [length Nat.eqb negb].
  pose proof (generate_unused_spec fuel (usedShortcodes_of (shortLinks w)) w) as Hspec.
  destruct (generate_unused fuel (usedShortcodes_of (shortLinks w)) w) as [[code w1]|].
  - split; [discriminate|]. intros Hall.
    destruct Hspec as (k & Hk & -> & Hfree & _). rewrite (Hall k Hk) in Hfree. discriminate.
  - split; [intros _; exact Hspec | reflexivity].
Qed.

End PagesFacts.

(** ** The further properties at work on the concrete runtime *)

Section PagesExamples.
#[local] Existing Instance Demo.runtime.

Lemma w_custom_created :
  handleSubmit 1 [] Demo.form_custom initial = Some (Created Demo.link_custom, Demo.w_custom).
Proof. vm_compute. reflexivity. Qed.

Lemma w_custom_first : shortLinks Demo.w_custom !! 0%nat = Some Demo.link_custom.
Proof. vm_compute. reflexivity. Qed.

Lemma w_custom_to_clicked : rtc step Demo.w_custom Demo.w_clicked.
Proof.
  eapply rtc_l; [apply (step_click _ "validCode123" Demo.meta1)|].
  eapply rtc_l; [apply (step_click _ "validCode123" Demo.meta2)|].
  apply rtc_refl.
Qed.


Lemma records_never_removed_witness :
  exists r', shortLinks Demo.w_clicked !! 0%nat = Some r' /\
             shortcode r' = "validCode123" /\ expiresAt r' = TimeValue 1800000 /\
             0 <= clickCount r'.
Proof.
  destruct (records_never_removed Demo.w_custom Demo.w_clicked 0%nat Demo.link_custom
              w_custom_to_clicked w_custom_first)
    as (_ & r' & Hi & _ & _ & Hc & _ & He & Hn & _).
  exists r'. auto.
Defined.

Lemma logs_append_only_witness :
  logs Demo.w_custom `prefix_of` logs Demo.w_clicked.
Proof.
  apply (logs_append_only Demo.w_custom Demo.w_clicked w_custom_to_clicked).
Defined.


Lemma created_link_lookup_witness :
  result (getShortLink "validCode123") Demo.w_custom = Some Demo.link_custom.
Proof.
  change "validCode123" with (shortcode Demo.link_custom).
  rewrite (created_link_lookup 1 [] Demo.form_custom initial Demo.link_custom Demo.w_custom
             w_custom_created).
  vm_compute. reflexivity.
Defined.

Lemma lookup_sound_witness :
  (exists i : nat, first_match (shortLinks Demo.w_custom) "validCode123" i Demo.link_custom)
  /\ Date_gt (Date_now (dates_read Demo.w_custom)) (expiresAt Demo.link_custom) = false.
Proof.
  destruct (lookup_sound Demo.w_custom "validCode123" Demo.link_custom) as (Hm & Hgt & _).
  - vm_compute. reflexivity.
  - split; [exact Hm | exact Hgt].
Defined.



Lemma recordClick_commutes_witness :
  shortLinks (run (recordClick "HIJKLM" Demo.meta2)
                (run (recordClick "BCDEFG" Demo.meta1) DemoPages.w_two))
  = shortLinks (run (recordClick "BCDEFG" Demo.meta1)
                  (run (recordClick "HIJKLM" Demo.meta2) DemoPages.w_two)).
Proof.
  apply (recordClick_commutes DemoPages.w_two "BCDEFG" Demo.meta1 "HIJKLM" Demo.meta2).
  discriminate.
Defined.

Lemma created_link_expiry_witness :
  expiresAt Demo.link_custom = TimeValue (createdAt Demo.link_custom + 30 * 60000)
  /\ result (getShortLink "validCode123") Demo.w_custom = Some Demo.link_custom.
Proof.
  destruct (created_link_expiry 1 [] Demo.form_custom initial Demo.link_custom Demo.w_custom 30
              w_custom_created) as (He & Hin & _).
  - reflexivity.
  - vm_compute. discriminate.
  - split; [exact He|]. apply Hin. vm_compute. discriminate.
Defined.


Lemma simulated_location_defined_witness :
  result getSimulatedLocation initial = Some "New York, US"
  /\ exists place, result getSimulatedLocation initial = Some place /\ In place locations.
Proof.
  split; [vm_compute; reflexivity|].
  apply (simulated_location_defined initial). apply demo_random_in_range.
Defined.

Lemma redirect_effect_spec_witness :
  exists view w',
    redirectEffect (Some "validCode123") Demo.w_custom = Some (view, w')
    /\ view = Redirecting "https://a.com"
    /\ map clickCount (shortLinks w') = [1].
Proof.
  destruct (redirect_effect_spec (Some "validCode123") Demo.w_custom)
    as (view & w' & Heff & _).
  - apply demo_random_in_range.
  - exists view, w'. split; [exact Heff|].
    vm_compute in Heff. injection Heff as <- <-. split; reflexivity.
Defined.


Lemma recent_links_show_newest_witness :
  last (recentLinks (shortLinks Demo.w_custom)) = Some Demo.link_custom.
Proof.
  apply (recent_links_show_newest 1 [] Demo.form_custom initial Demo.link_custom Demo.w_custom
           w_custom_created).
Defined.

Lemma submit_twice_witness :
  exists f1 w2,
    submit 1 DemoPages.filled_form initial = Some (f1, Demo.w_custom)
    /\ submit 1 f1 Demo.w_custom
       = Some ({| Form.url := blank_url; Form.errors := ["URL is required"];
                  Form.loading := false;
                  Form.successMessage := Some "Successfully created short link!" |}, w2)
    /\ shortLinks w2 = shortLinks Demo.w_custom.
Proof.
  destruct (submit_twice 1 DemoPages.filled_form initial Demo.link_custom Demo.w_custom
              w_custom_created) as (Hfirst & Hsecond).
  destruct (Hsecond 1%nat) as (w2 & Hs & Hsl & _).
  eexists. exists w2. split; [exact Hfirst|]. split; [exact Hs | exact Hsl].
Defined.

Lemma generation_never_ends_witness :
  @handleSubmit DemoPages.stuck 50 [] Demo.form_a DemoPages.w_stuck = None
  /\ forall fuel, @handleSubmit DemoPages.stuck fuel [] Demo.form_a DemoPages.w_stuck = None.
Proof.
  assert (H : forall fuel,
             @handleSubmit DemoPages.stuck fuel [] Demo.form_a DemoPages.w_stuck = None).
  { intros fuel.
    apply (@generation_never_ends DemoPages.stuck fuel [] Demo.form_a DemoPages.w_stuck).
    - vm_compute. reflexivity.
    - reflexivity.
    - intros k _. vm_compute. reflexivity. }
  split; [apply H | exact H].
Defined.

End PagesExamples.
